(** * The Google Cloud Storage JSON driver (libcloud/storage/drivers/google_json.py)

    A shallow embedding of [GCSConnection] and [GoogleStorageDriver].
    Python values decoded from JSON are an inductive type, dictionaries
    are finite maps, exceptions are an error type, and the methods of
    the connection and of the driver are computations in a state and
    error monad over the state of the connection, the list of requests
    handed to the transport, the remote service and the local disk. *)

From Stdlib Require Import ZArith String List.
From stdpp Require Import base option list gmap strings.
Import ListNotations.

Local Open Scope string_scope.
Set Warnings "-register-all".

(** ** Python values *)

(** What [json.loads] returns, and what the driver passes around:
    [None], booleans, integers, strings, lists and dictionaries with
    string keys.  An empty response body is the empty string. *)
Inductive value : Type :=
| VNone
| VBool (b : bool)
| VInt (n : Z)
| VStr (s : string)
| VList (l : list value)
| VDict (d : gmap string value).

(** ** Exceptions *)

(** The built-in exceptions the statements of this file can raise, and
    [Raised cls info] for an exception of class [cls] raised by the
    base connection (HTTP errors, authentication, parse errors). *)
Inductive exn : Type :=
| KeyError (key : string)
| TypeError
| AttributeError (attr : string)
| NameError (name : string)
| Raised (cls : string) (info : value).

Definition exn_class (e : exn) : string :=
  match e with
  | KeyError _ => "KeyError"
  | TypeError => "TypeError"
  | AttributeError _ => "AttributeError"
  | NameError _ => "NameError"
  | Raised cls _ => cls
  end.

(** The result of evaluating an expression: a value or a raised
    exception. *)
Inductive result (A : Type) : Type :=
| Ok (a : A)
| Err (e : exn).
Arguments Ok {A} a.
Arguments Err {A} e.

Definition rbind {A B} (r : result A) (k : A -> result B) : result B :=
  match r with
  | Ok a => k a
  | Err e => Err e
  end.

Declare Scope result_scope.
Delimit Scope result_scope with res.
Notation "x <- r ;; k" := (rbind r (fun x => k))
  (at level 100, r at next level, right associativity) : result_scope.

(** ** Built-in operations on values *)

(** [s in t] for strings: substring test. *)
Fixpoint substring_of (s t : string) : bool :=
  String.prefix s t ||
  match t with
  | EmptyString => false
  | String _ t' => substring_of s t'
  end.

Definition is_str (s : string) (v : value) : bool :=
  match v with
  | VStr t => String.eqb t s
  | _ => false
  end.

(** [key in v] with [key] a string: key membership for a dictionary,
    substring test for a string, element test for a list, [TypeError]
    for a value that is not a container. *)
Definition py_in (key : string) (v : value) : result bool :=
  match v with
  | VDict d => Ok (bool_decide (is_Some (d !! key)))
  | VStr t => Ok (substring_of key t)
  | VList l => Ok (existsb (is_str key) l)
  | VNone | VBool _ | VInt _ => Err TypeError
  end.

(** [v[key]] with [key] a string: [KeyError] for a dictionary without
    the key, [TypeError] for every other value (strings and lists take
    integer indices, the rest is not subscriptable). *)
Definition py_getitem (v : value) (key : string) : result value :=
  match v with
  | VDict d =>
      match d !! key with
      | Some x => Ok x
      | None => Err (KeyError key)
      end
  | _ => Err TypeError
  end.

(** [v.get(key, dflt)]: only dictionaries have the method. *)
Definition py_get (v : value) (key : string) (dflt : value) : result value :=
  match v with
  | VDict d => Ok (default dflt (d !! key))
  | _ => Err (AttributeError "get")
  end.

Fixpoint chars (s : string) : list value :=
  match s with
  | EmptyString => []
  | String a s' => VStr (String a EmptyString) :: chars s'
  end.

(** [for item in v]: the elements of a list, the characters of a
    string, the keys of a dictionary; other values are not iterable.
    (The keys come in the order of [map_to_list]; every mapping below
    rejects a string item, so the order is immaterial here.) *)
Definition py_iter (v : value) : result (list value) :=
  match v with
  | VList l => Ok l
  | VStr s => Ok (chars s)
  | VDict d => Ok (VStr <$> (map_to_list d).*1)
  | VNone | VBool _ | VInt _ => Err TypeError
  end.

(** [v == ""]. *)
Definition eq_empty_str (v : value) : bool :=
  match v with
  | VStr s => String.eqb s ""
  | _ => false
  end.

(** Truth value of a dictionary: false exactly when it is empty. *)
Definition dict_bool (d : gmap string value) : bool :=
  negb (bool_decide (map_to_list d = [])).

(** ** Containers and objects *)

(** Modelled from the spec: the classes [Container] and [Object] of
    libcloud.storage.base are not part of this file.  The spec gives
    their fields; the back-reference to the driver is left out, there
    being one driver.  An instance of either class is a plain object,
    so it is true in a condition and is not [None]. *)
Module Container.
Record t : Type := mk { name : value; extra : value }.
Definition truth (c : t) : bool := true.
End Container.

Module Object.
Record t : Type := mk {
  name : value;
  size : value;
  hash : value;
  extra : value;
  meta_data : value;
  container : option Container.t
}.
Definition is_not_None (o : t) : bool := true.
End Object.

(** ** Mapping functions *)

Section Mapping.
Local Open Scope result_scope.

(** [GoogleStorageDriver._to_container] *)
Definition _to_container (item : value) : result Container.t :=
  name <- py_getitem item "name" ;;
  Ok (Container.mk name item).

(** [GoogleStorageDriver._to_object]; the arguments of [Object] are
    evaluated from left to right, after [meta_data]. *)
Definition _to_object (item : value) (container : option Container.t)
  : result Object.t :=
  meta_data <- py_get item "metadata" (VDict ∅) ;;
  name <- py_getitem item "name" ;;
  size <- py_getitem item "size" ;;
  hash <- py_getitem item "md5Hash" ;;
  Ok (Object.mk name size hash item meta_data container).

(** The loop [for item in items: out.append(f(item))]. *)
Fixpoint collect {A} (f : value -> result A) (items : list value)
  : result (list A) :=
  match items with
  | [] => Ok []
  | item :: rest =>
      a <- f item ;;
      out <- collect f rest ;;
      Ok (a :: out)
  end.

(** [GoogleStorageDriver._to_containers] *)
Definition _to_containers (data : value) : result (list Container.t) :=
  v <- py_getitem data "items" ;;
  items <- py_iter v ;;
  collect _to_container items.

(** [GoogleStorageDriver._to_objects] *)
Definition _to_objects (data : value) (container : option Container.t)
  : result (list Object.t) :=
  v <- py_getitem data "items" ;;
  items <- py_iter v ;;
  collect (fun item => _to_object item container) items.
End Mapping.

(** ** Requests and responses *)

(** A request as the transport sees it: the method, the action (the
    path below the connection's [request_path]), the query parameters
    after [pre_connect_hook], and the body. *)
Record Request : Type := mkRequest {
  method : string;
  action : string;
  params : gmap string value;
  data : option value
}.

(** Of a response the driver reads the attribute [object] only. *)
Record Response : Type := mkResponse { object : value }.

Definition API_VERSION : string := "v1".

(** [GoogleStorageDriver]: the project id given at construction. *)
Record GoogleStorageDriver : Type := mkDriver { project : value }.

Section Driver.

(** The remote service with the transport in front of it, left
    abstract: the answer to a request is a response or an exception
    of the base connection (a status that is not a success is mapped
    to an exception there), and a new state of the service. *)
Variable Remote : Type.
Variable transport : Remote -> Request -> result Response * Remote.

(** [str(v)] for a value that is not a string, as [%s] formats it. *)
Variable py_repr : value -> string.

Definition py_str (v : value) : string :=
  match v with
  | VStr s => s
  | _ => py_repr v
  end.

(** The state the methods work on.  [gcs_params] is the attribute of
    the connection: [None] or a reference to a dictionary in [heap],
    which whoever assigned the attribute still holds.  [sent] lists
    the requests handed to the transport, oldest first.  [disk] is
    the local file system, path to contents. *)
Record World : Type := mkWorld {
  request_path : string;
  gcs_params : option nat;
  heap : gmap nat (gmap string value);
  sent : list Request;
  remote : Remote;
  disk : gmap string string
}.

Definition deref (w : World) (l : nat) : gmap string value :=
  default ∅ (heap w !! l).

(** *** The state and error monad *)

Definition M (A : Type) : Type := World -> result A * World.

Definition ret {A} (a : A) : M A := fun w => (Ok a, w).
Definition raise {A} (e : exn) : M A := fun w => (Err e, w).
Definition lift {A} (r : result A) : M A := fun w => (r, w).
Definition bind {A B} (m : M A) (k : A -> M B) : M B :=
  fun w =>
    match m w with
    | (Ok a, w') => k a w'
    | (Err e, w') => (Err e, w')
    end.

Declare Scope py_scope.
Delimit Scope py_scope with py.
Notation "x <- m ;; k" := (bind m (fun x => k))
  (at level 100, m at next level, right associativity) : py_scope.
Notation "m ;;; k" := (bind m (fun _ => k))
  (at level 100, right associativity) : py_scope.
Local Open Scope py_scope.

Definition get_gcs_params : M (option nat) :=
  fun w => (Ok (gcs_params w), w).
Definition set_gcs_params (p : option nat) : M unit :=
  fun w => (Ok tt, mkWorld (request_path w) p (heap w) (sent w)
                    (remote w) (disk w)).
Definition load (l : nat) : M (gmap string value) :=
  fun w => (Ok (deref w l), w).
Definition store (l : nat) (d : gmap string value) : M unit :=
  fun w => (Ok tt, mkWorld (request_path w) (gcs_params w)
                    (<[l := d]> (heap w)) (sent w) (remote w) (disk w)).

(** *** GCSConnection *)

(** [GCSConnection.__init__]: a fresh connection to the service [s]
    on a machine whose disk is [fs]. *)
Definition GCSConnection (s : Remote) (fs : gmap string string) : World :=
  mkWorld ("/storage/" ++ API_VERSION) None ∅ [] s fs.

(** [GCSConnection.pre_connect_hook].  The hook of the base class
    adds the authorization header and returns [params] as they are;
    headers are not modelled. *)
Definition pre_connect_hook (params : gmap string value)
  : M (gmap string value) :=
  p <- get_gcs_params ;;
  match p with
  | Some l =>
      bag <- load l ;;
      if dict_bool bag then ret (bag ∪ params) else ret params
  | None => ret params
  end.

(** Modelled from the spec: [GoogleBaseConnection.request] is not
    part of this file.  It takes [params=None] for no parameters,
    consults [pre_connect_hook] immediately before the send, hands
    the request to the transport once, and returns the response or
    raises the transport's exception. *)
Definition base_request (action method : string)
    (params : option (gmap string value)) (data : option value)
  : M Response :=
  query <- pre_connect_hook (default ∅ params) ;;
  fun w =>
    let req := mkRequest method action query data in
    let '(r, s) := transport (remote w) req in
    (r, mkWorld (request_path w) (gcs_params w) (heap w)
          (sent w ++ [req]) s (disk w)).

(** [GCSConnection.request] *)
Definition request (action method : string)
    (params : option (gmap string value)) (data : option value)
  : M Response :=
  response <- base_request action method params data ;;
  p <- get_gcs_params ;;
  match p with
  | Some l =>
      bag <- load l ;;
      if dict_bool bag then
        has_next <- lift (py_in "nextPageToken" (object response)) ;;
        (if has_next : bool then
           token <- lift (py_getitem (object response) "nextPageToken") ;;
           store l (<["pageToken" := token]> bag)
         else if bool_decide (is_Some (bag !! "pageToken")) then
           store l (delete "pageToken" bag)
         else ret tt) ;;;
        set_gcs_params None ;;;
        ret response
      else ret response
  | None => ret response
  end.

(** *** GoogleStorageDriver *)

(** [obj.container.name]: an object built without a container has
    [None] there. *)
Definition container_name_of (obj : Object.t) : result value :=
  match Object.container obj with
  | Some c => Ok (Container.name c)
  | None => Err (AttributeError "name")
  end.

(** [GoogleStorageDriver.iterate_containers] *)
Definition iterate_containers (self : GoogleStorageDriver)
  : M (list Container.t) :=
  let params := {[ "project" := project self ]} in
  response <- request "/b" "GET" (Some params) None ;;
  containers <- lift (_to_containers (object response)) ;;
  ret containers.

(** [GoogleStorageDriver.iterate_container_objects] *)
Definition iterate_container_objects (self : GoogleStorageDriver)
    (container : Container.t) : M (list Object.t) :=
  let path := "/b/" ++ py_str (Container.name container) ++ "/o" in
  response <- request path "GET" None None ;;
  objects <- lift (_to_objects (object response) (Some container)) ;;
  ret objects.

(** [GoogleStorageDriver.get_container].  The name
    [ContainerDoesNotExistError] is not bound in the module:
    evaluating it raises [NameError]. *)
Definition get_container (self : GoogleStorageDriver)
    (container_name : value) : M Container.t :=
  let path := "/b/" ++ py_str container_name in
  response <- request path "GET" None None ;;
  container <- lift (_to_container (object response)) ;;
  if Container.truth container then ret container
  else raise (NameError "ContainerDoesNotExistError").

(** [GoogleStorageDriver.get_object].  [ObjectDoesNotExistError] is
    not bound in the module either. *)
Definition get_object (self : GoogleStorageDriver)
    (container_name object_name : value) : M Object.t :=
  container <- get_container self container_name ;;
  let path :=
    "/b/" ++ py_str container_name ++ "/o/" ++ py_str object_name in
  response <- request path "GET" None None ;;
  obj <- lift (_to_object (object response) (Some container)) ;;
  if Object.is_not_None obj then ret obj
  else raise (NameError "ObjectDoesNotExistError").

(** [GoogleStorageDriver.delete_object] *)
Definition delete_object (self : GoogleStorageDriver) (obj : Object.t)
  : M bool :=
  let object_name := Object.name obj in
  container_name <- lift (container_name_of obj) ;;
  let path :=
    "b/" ++ py_str container_name ++ "/o/" ++ py_str object_name in
  response <- request path "DELETE" None None ;;
  if eq_empty_str (object response) then ret true else ret false.

(** [GoogleStorageDriver.create_container] *)
Definition create_container (self : GoogleStorageDriver)
    (container_name : value) : M Container.t :=
  let params := {[ "project" := project self ]} in
  let body := VDict {[ "name" := container_name ]} in
  response <- request "/b" "POST" (Some params) (Some body) ;;
  container <- lift (_to_container (object response)) ;;
  ret container.

(** [GoogleStorageDriver.delete_container] *)
Definition delete_container (self : GoogleStorageDriver)
    (container : Container.t) : M bool :=
  let path := "/b/" ++ py_str (Container.name container) in
  response <- request path "DELETE" None None ;;
  if eq_empty_str (object response) then ret true else ret false.

(** [GoogleStorageDriver.download_object].  The body ends after the
    request: the method returns [None]. *)
Definition download_object (self : GoogleStorageDriver) (obj : Object.t)
    (destination_path : string)
    (overwrite_existing delete_on_failure : bool) : M unit :=
  container_name <- lift (container_name_of obj) ;;
  let object_name := Object.name obj in
  let params := {[ "alt" := VStr "media" ]} in
  let path :=
    "/b/" ++ py_str container_name ++ "/o/" ++ py_str object_name in
  response <- request path "GET" (Some params) None ;;
  ret tt.

End Driver.

Arguments request_path {Remote} w.
Arguments gcs_params {Remote} w.
Arguments heap {Remote} w.
Arguments sent {Remote} w.
Arguments remote {Remote} w.
Arguments disk {Remote} w.
Arguments deref {Remote} w l.
Arguments ret {Remote A} a w.
Arguments raise {Remote A} e w.
Arguments lift {Remote A} r w.
Arguments bind {Remote A B} m k w.

(** ** Sequences of driver operations *)

(** One call of a public method of the driver, with its arguments. *)
Inductive call : Type :=
| Call_iterate_containers
| Call_iterate_container_objects (container : Container.t)
| Call_get_container (container_name : value)
| Call_get_object (container_name object_name : value)
| Call_delete_object (obj : Object.t)
| Call_create_container (container_name : value)
| Call_delete_container (container : Container.t)
| Call_download_object (obj : Object.t) (destination_path : string)
    (overwrite_existing delete_on_failure : bool).

Definition is_listing (c : call) : bool :=
  match c with
  | Call_iterate_containers | Call_iterate_container_objects _ => true
  | _ => false
  end.

Section Calls.
Variable Remote : Type.
Variable transport : Remote -> Request -> result Response * Remote.
Variable py_repr : value -> string.
Variable self : GoogleStorageDriver.

(** The state a call leaves behind, whether it returns or raises. *)
Definition run (c : call) (w : World Remote) : World Remote :=
  match c with
  | Call_iterate_containers =>
      snd (iterate_containers Remote transport self w)
  | Call_iterate_container_objects container =>
      snd (iterate_container_objects Remote transport py_repr self container w)
  | Call_get_container n =>
      snd (get_container Remote transport py_repr self n w)
  | Call_get_object cn on =>
      snd (get_object Remote transport py_repr self cn on w)
  | Call_delete_object obj =>
      snd (delete_object Remote transport py_repr self obj w)
  | Call_create_container n =>
      snd (create_container Remote transport self n w)
  | Call_delete_container container =>
      snd (delete_container Remote transport py_repr self container w)
  | Call_download_object obj dst ow dof =>
      snd (download_object Remote transport py_repr self obj dst ow dof w)
  end.

(** The states of a connection that the driver alone has used: a
    fresh connection, then any sequence of calls. *)
Inductive reachable : World Remote -> Prop :=
| reachable_init (s : Remote) (fs : gmap string string) :
    reachable (GCSConnection Remote s fs)
| reachable_call (c : call) (w : World Remote) :
    reachable w -> reachable (run c w).

End Calls.

(** ** States and computations of an idle connection *)

Section Idle.
Context {Remote : Type}.
Variable transport : Remote -> Request -> result Response * Remote.

(** The state after one send on a connection whose [gcs_params] is
    [None]. *)
Definition after_send (w : World Remote) (req : Request) : World Remote :=
  mkWorld Remote (request_path w) None (heap w) (sent w ++ [req])
    (snd (transport (remote w) req)) (disk w).

(** A computation is quiet when it leaves [gcs_params] as it found it
    or resets it to [None]: it never puts a dictionary there. *)
Definition quiet {A} (m : M Remote A) : Prop :=
  forall w, gcs_params (snd (m w)) = gcs_params w \/
            gcs_params (snd (m w)) = None.

End Idle.

(** ** The vocabulary of the specification *)

(** An evaluation fails with an exception of class [cls]. *)
Definition fails_with {A} (cls : string) (r : result A) : Prop :=
  exists e, r = Err e /\ exn_class e = cls.

(** The classes behind the failures the specification names. *)
Definition ContainerNotFound : string := "ContainerDoesNotExistError".
Definition MalformedResponse : string := "MalformedResponseError".

(** The fields of an item that an [Object] models separately. *)
Definition modelled_fields : list string :=
  ["name"; "size"; "md5Hash"; "metadata"].

(** [extra] holds exactly the fields of [item] that are not modelled
    separately. *)
Definition extra_is_the_rest (item : gmap string value) (o : Object.t)
  : Prop :=
  exists rest : gmap string value,
    Object.extra o = VDict rest /\
    forall k, is_Some (rest !! k) <->
              is_Some (item !! k) /\ k ∉ modelled_fields.

(** A bucket or object record that carries a name. *)
Definition named (item : value) : Prop :=
  exists d n, item = VDict d /\ d !! "name" = Some n.

(** ** Fixtures *)

(** A formatter for fixtures whose names are all strings. *)
Definition plain_names : value -> string := fun _ => "".

(** A service that gives the same answer to every request. *)
Definition answers (v : value) (s : unit) (r : Request)
  : result Response * unit := (Ok (mkResponse v), s).

(** A service whose transport reports a failure for every request. *)
Definition refuses (e : exn) (s : unit) (r : Request)
  : result Response * unit := (Err e, s).

Definition object_fields (name : string) : gmap string value :=
  <["name" := VStr name]>
    (<["size" := VInt 10]>
    (<["md5Hash" := VStr "abc123"]>
    (<["contentType" := VStr "text/plain"]> ∅))).

Definition object_record (name : string) : value :=
  VDict (object_fields name).

(** A bucket record without a name. *)
Definition nameless : gmap string value := <["location" := VStr "US"]> ∅.

Definition bucket_record (name : string) : value :=
  VDict (<["name" := VStr name]> (<["location" := VStr "US"]> ∅)).

(** A listing in two pages: the first page carries the token [T], the
    page asked for with [pageToken=T] carries none. *)
Definition two_pages (s : unit) (r : Request) : result Response * unit :=
  match params r !! "pageToken" with
  | None =>
      (Ok (mkResponse (VDict
         (<["items" := VList [object_record "a"; object_record "b"]]>
         (<["nextPageToken" := VStr "T"]> ∅)))), s)
  | Some _ =>
      (Ok (mkResponse (VDict
         (<["items" := VList [object_record "c"]]> ∅))), s)
  end.

(** A service with one bucket that holds one object. *)
Definition one_file (s : unit) (r : Request) : result Response * unit :=
  if String.eqb (action r) "/b/bucket-x" then
    (Ok (mkResponse (bucket_record "bucket-x")), s)
  else if String.eqb (action r) "/b/bucket-x/o/file.txt" then
    (Ok (mkResponse (object_record "file.txt")), s)
  else (Err (Raised "ResourceNotFoundError" (VStr "Not Found")), s).


Definition my_driver : GoogleStorageDriver := mkDriver (VStr "my-project").

Definition bucket_x : Container.t :=
  Container.mk (VStr "bucket-x") (bucket_record "bucket-x").

Definition file_txt : Object.t :=
  Object.mk (VStr "file.txt") (VInt 10) (VStr "abc123")
    (object_record "file.txt") (VDict ∅) (Some bucket_x).

(** A connection whose [gcs_params] some caller has set to the
    dictionary [{"maxResults": 1}], which lives at address 0. *)
Definition armed : World unit :=
  mkWorld unit ("/storage/" ++ API_VERSION) (Some 0%nat)
    {[ 0%nat := {[ "maxResults" := VInt 1 ]} ]} [] tt ∅.

(** A fresh connection on a machine with an empty disk, and one on a
    machine where [/tmp/file.txt] exists. *)
Definition fresh : World unit := GCSConnection unit tt ∅.
Definition with_file : World unit :=
  GCSConnection unit tt (<["/tmp/file.txt" := "old contents"]> ∅).

(** ** Shapes of records, of results and of computations *)

(** An object record that carries the three fields [_to_object]
    requires. *)
Definition complete (item : value) : Prop :=
  exists d n s h,
    item = VDict d /\ d !! "name" = Some n /\ d !! "size" = Some s /\
    d !! "md5Hash" = Some h.

(** A container whose name is the [name] field of the record it
    carries in [extra]. *)
Definition container_consistent (c : Container.t) : Prop :=
  py_getitem (Container.extra c) "name" = Ok (Container.name c).

(** An object whose attributes are the fields of the record it
    carries in [extra]. *)
Definition object_consistent (o : Object.t) : Prop :=
  py_getitem (Object.extra o) "name" = Ok (Object.name o) /\
  py_getitem (Object.extra o) "size" = Ok (Object.size o) /\
  py_getitem (Object.extra o) "md5Hash" = Ok (Object.hash o) /\
  py_get (Object.extra o) "metadata" (VDict ∅) = Ok (Object.meta_data o).

(** The number of round trips a call can take. *)
Definition max_requests (c : call) : nat :=
  match c with
  | Call_get_object _ _ => 2
  | _ => 1
  end.

Section Frames.
Context {Remote : Type}.

(** A computation that hands at most [n] requests to the transport
    and leaves the ones sent before in place. *)
Definition sends_at_most {A} (n : nat) (m : M Remote A) : Prop :=
  forall w, exists reqs,
    sent (snd (m w)) = (sent w ++ reqs)%list /\ length reqs <= n.

(** A computation that leaves the local disk and the base path of the
    connection alone. *)
Definition keeps_machine {A} (m : M Remote A) : Prop :=
  forall w, disk (snd (m w)) = disk w /\
            request_path (snd (m w)) = request_path w.

End Frames.

(** A connection whose [gcs_params] refers to an empty dictionary. *)
Definition empty_bag : World unit :=
  mkWorld unit ("/storage/" ++ API_VERSION) (Some 0%nat) {[ 0%nat := ∅ ]}
    [] tt ∅.

(** An object record without its size. *)
Definition sizeless : value :=
  VDict (<["name" := VStr "broken"]> (<["md5Hash" := VStr "abc123"]> ∅)).

(** The answer to a listing whose second item lacks its size. *)
Definition mixed_listing : gmap string value :=
  {[ "items" := VList [object_record "a"; sizeless; object_record "c"] ]}.

(** The answer to a listing of two complete object records. *)
Definition two_objects : value :=
  VDict {[ "items" := VList [object_record "a"; object_record "b"] ]}.

(** * Properties *)

(** ** The mapping functions *)

Lemma eq_empty_str_true (v : value) : eq_empty_str v = true <-> v = VStr "".
Proof.
  destruct v as [| | |s| |]; simpl; try (split; [discriminate|discriminate]).
  rewrite String.eqb_eq. split; [intros ->; reflexivity | congruence].
Qed.

Lemma eq_empty_str_false (v : value) : eq_empty_str v = false <-> v <> VStr "".
Proof.
  rewrite <- eq_empty_str_true. destruct (eq_empty_str v); split; congruence.
Qed.

Lemma _to_container_dict (d : gmap string value) :
  _to_container (VDict d) =
  match d !! "name" with
  | Some n => Ok (Container.mk n (VDict d))
  | None => Err (KeyError "name")
  end.
Proof. unfold _to_container; simpl. destruct (d !! "name"); reflexivity. Qed.

Lemma _to_container_named (item : value) :
  named item ->
  exists c, _to_container item = Ok c /\
            py_getitem item "name" = Ok (Container.name c) /\
            Container.extra c = item.
Proof.
  intros (d & n & -> & Hn). exists (Container.mk n (VDict d)).
  rewrite _to_container_dict; simpl. rewrite Hn. auto.
Qed.


Lemma _to_object_container (item : value) (c : option Container.t) (o : Object.t) :
  _to_object item c = Ok o -> Object.container o = c.
Proof.
  unfold _to_object, rbind.
  destruct (py_get item "metadata" (VDict ∅)); [|discriminate].
  destruct (py_getitem item "name"); [|discriminate].
  destruct (py_getitem item "size"); [|discriminate].
  destruct (py_getitem item "md5Hash"); [|discriminate].
  intros [= <-]. reflexivity.
Qed.

Lemma collect_Forall {A} (f : value -> result A) (P : A -> Prop)
    (items : list value) :
  (forall item a, f item = Ok a -> P a) ->
  forall out, collect f items = Ok out -> Forall P out.
Proof.
  intros Hf. induction items as [|item items IH]; simpl; intros out.
  - intros [= <-]. constructor.
  - unfold rbind. destruct (f item) as [a|] eqn:Ha; [|discriminate].
    destruct (collect f items) as [rest|]; [|discriminate].
    intros [= <-]. constructor; eauto.
Qed.

(** C7, as stated, fails on the record [{"location": "US"}]: it has no
    name, and the mapping raises [KeyError('name')], which is not an
    exception of the class the specification calls MalformedResponse. *)
Lemma _to_container_nameless_counterexample :
  nameless !! "name" = None /\
  _to_container (VDict nameless) = Err (KeyError "name") /\
  ~ fails_with MalformedResponse (_to_container (VDict nameless)).
Proof.
  split; [reflexivity|]. split; [reflexivity|].
  intros (e & He & Hcls). vm_compute in He. injection He as <-.
  discriminate Hcls.
Qed.

(** C7 (amended): for every JSON record without a name field the
    item-to-Container mapping fails with [KeyError('name')] and returns
    no Container; for a record with a name, the Container carries that
    name and the record passes through verbatim into [extra], so every
    other field is found there with its value. *)
Theorem _to_container_contract (d : gmap string value) :
  match d !! "name" with
  | None => _to_container (VDict d) = Err (KeyError "name")
  | Some n =>
      exists c, _to_container (VDict d) = Ok c /\
                Container.name c = n /\
                Container.extra c = VDict d /\
                forall k v, k <> "name" -> d !! k = Some v ->
                            py_getitem (Container.extra c) k = Ok v
  end.
Proof.
  rewrite _to_container_dict. destruct (d !! "name") as [n|]; [|reflexivity].
  exists (Container.mk n (VDict d)). repeat split.
  intros k v _ Hk. simpl. rewrite Hk. reflexivity.
Qed.

(** C6, as stated, fails on an item with name, size, md5Hash and one
    more field: the mapping succeeds and [extra] is the whole item, so
    it holds the separately modelled field [name] as well. *)
Lemma _to_object_extra_counterexample :
  exists o, _to_object (object_record "file.txt") None = Ok o /\
            ~ extra_is_the_rest (object_fields "file.txt") o.
Proof.
  eexists. split; [vm_compute; reflexivity|].
  intros (rest & Hrest & Hiff). simpl in Hrest. injection Hrest as <-.
  destruct (Hiff "name") as [Hname _].
  destruct Hname as [_ Hout]; [vm_compute; eauto|].
  apply Hout. unfold modelled_fields. constructor.
Qed.

(** C6 (amended): the item-to-Object mapping requires [name], [size]
    and [md5Hash] and raises [KeyError] for the first of them that is
    missing, returning no record; otherwise [meta_data] is the
    [metadata] sub-object, the empty dictionary when it is absent, and
    [extra] is the whole item, the separately modelled fields
    included.  An item that is not a dictionary is rejected too. *)
Theorem _to_object_contract (item : value) (c : option Container.t) :
  match item with
  | VDict d =>
      match d !! "name", d !! "size", d !! "md5Hash" with
      | Some n, Some s, Some h =>
          _to_object item c =
          Ok (Object.mk n s h item (default (VDict ∅) (d !! "metadata")) c)
      | None, _, _ => _to_object item c = Err (KeyError "name")
      | Some _, None, _ => _to_object item c = Err (KeyError "size")
      | Some _, Some _, None => _to_object item c = Err (KeyError "md5Hash")
      end
  | _ => _to_object item c = Err (AttributeError "get")
  end.
Proof.
  destruct item as [| | | | |d]; try reflexivity.
  unfold _to_object; simpl.
  destruct (d !! "name"); simpl; [|reflexivity].
  destruct (d !! "size"); simpl; [|reflexivity].
  destruct (d !! "md5Hash"); reflexivity.
Qed.

(** ** The connection *)

Section Connection.
Context {Remote : Type}.
Variable transport : Remote -> Request -> result Response * Remote.

Local Abbreviation World := (World Remote).
Local Abbreviation request := (request Remote transport).
Local Abbreviation after_send := (after_send transport).
Local Abbreviation quiet := (quiet (Remote := Remote)).

(** With nothing in [gcs_params], the hook returns the parameters as
    they are. *)
Lemma pre_connect_hook_idle (w : World) (params : gmap string value) :
  gcs_params w = None ->
  pre_connect_hook Remote params w = (Ok params, w).
Proof.
  intros Hw. unfold pre_connect_hook, bind, get_gcs_params.
  rewrite Hw. reflexivity.
Qed.

(** With nothing in [gcs_params], a request is one send of the
    parameters the caller gave, and the response or the exception of
    the transport comes back untouched. *)
Lemma request_idle action method params body (w : World) :
  gcs_params w = None ->
  let req := mkRequest method action (default ∅ params) body in
  request action method params body w =
  (fst (transport (remote w) req), after_send w req).
Proof.
  intros Hw req. unfold request, base_request, bind at 1 2.
  rewrite (pre_connect_hook_idle w _ Hw). fold req.
  unfold after_send. destruct (transport (remote w) req) as [[r|e] s]; simpl.
  - unfold bind, get_gcs_params; simpl. rewrite Hw. reflexivity.
  - rewrite Hw. reflexivity.
Qed.

Lemma bind_request_idle {A} action method params body
    (k : Response -> M Remote A) (w : World) :
  gcs_params w = None ->
  let req := mkRequest method action (default ∅ params) body in
  bind (request action method params body) k w =
  match fst (transport (remote w) req) with
  | Ok response => k response (after_send w req)
  | Err e => (Err e, after_send w req)
  end.
Proof.
  intros Hw req. unfold bind.
  rewrite (request_idle action method params body w Hw). fold req.
  destruct (fst (transport (remote w) req)); reflexivity.
Qed.

Lemma after_send_idle (w : World) (req : Request) :
  gcs_params (after_send w req) = None.
Proof. reflexivity. Qed.

Lemma quiet_ret {A} (a : A) : quiet (ret a).
Proof. intros w. left. reflexivity. Qed.

Lemma quiet_raise {A} (e : exn) : quiet (raise (A := A) e).
Proof. intros w. left. reflexivity. Qed.

Lemma quiet_lift {A} (r : result A) : quiet (lift r).
Proof. intros w. left. reflexivity. Qed.

Lemma quiet_bind {A B} (m : M Remote A) (k : A -> M Remote B) :
  quiet m -> (forall a, quiet (k a)) -> quiet (bind m k).
Proof.
  intros Hm Hk w. unfold bind. specialize (Hm w).
  destruct (m w) as [[a|e] w1]; simpl in *; [|exact Hm].
  destruct (Hk a w1) as [H1|H1]; rewrite H1; auto.
Qed.

Lemma quiet_store l d : quiet (store Remote l d).
Proof. intros w. left. reflexivity. Qed.

Lemma quiet_set_None : quiet (set_gcs_params Remote None).
Proof. intros w. right. reflexivity. Qed.

Lemma quiet_pre_connect_hook params : quiet (pre_connect_hook Remote params).
Proof.
  intros w. left. unfold pre_connect_hook, bind, get_gcs_params, load, ret.
  destruct (gcs_params w) eqn:Hw; [destruct (dict_bool _)|]; exact Hw.
Qed.

Lemma quiet_base_request action method params body :
  quiet (base_request Remote transport action method params body).
Proof.
  unfold base_request. apply quiet_bind; [apply quiet_pre_connect_hook|].
  intros q w. left. destruct (transport _ _); reflexivity.
Qed.

Lemma quiet_request action method params body :
  quiet (request action method params body).
Proof.
  unfold request. apply quiet_bind; [apply quiet_base_request|].
  intros response. apply quiet_bind; [intros w; left; reflexivity|].
  intros [l|]; [|apply quiet_ret].
  apply quiet_bind; [intros w; left; reflexivity|]. intros bag.
  destruct (dict_bool bag); [|apply quiet_ret].
  apply quiet_bind; [apply quiet_lift|]. intros has_next.
  apply quiet_bind.
  - destruct has_next.
    + apply quiet_bind; [apply quiet_lift|]. intros; apply quiet_store.
    + destruct (bool_decide _); [apply quiet_store|apply quiet_ret].
  - intros _. apply quiet_bind; [apply quiet_set_None|].
    intros; apply quiet_ret.
Qed.

(** When [gcs_params] refers to a dictionary that is not empty, a
    request that returns leaves [None] there. *)
Lemma request_resets action method params body (w w' : World) l response :
  gcs_params w = Some l ->
  dict_bool (deref w l) = true ->
  request action method params body w = (Ok response, w') ->
  gcs_params w' = None.
Proof.
  intros Hl Hbag. unfold request, base_request, bind at 1 2.
  unfold pre_connect_hook, bind at 1 2, get_gcs_params, load.
  rewrite Hl, Hbag. unfold ret at 1.
  destruct (transport _ _) as [[r|e] s]; [|discriminate].
  unfold bind at 1 2; simpl. rewrite Hl; simpl.
  unfold load, deref, bind at 1; simpl. fold (deref w l). rewrite Hbag.
  unfold bind at 1, lift.
  destruct (py_in "nextPageToken" (object r)) as [[|]|]; [| |discriminate].
  - unfold bind at 1 2.
    destruct (py_getitem (object r) "nextPageToken"); [|discriminate].
    simpl. intros [= _ <-]. reflexivity.
  - unfold bind at 1. destruct (bool_decide _); simpl;
      intros [= _ <-]; reflexivity.
Qed.

End Connection.

(** ** The driver *)

Ltac unfold_driver :=
  unfold iterate_containers, iterate_container_objects, get_container,
    get_object, delete_object, create_container, delete_container,
    download_object;
  cbv zeta.

Ltac unfold_get_object := unfold get_object; cbv zeta.

Section DriverProperties.
Context {Remote : Type}.
Variable transport : Remote -> Request -> result Response * Remote.
Variable py_repr : value -> string.
Variable self : GoogleStorageDriver.

Local Abbreviation World := (World Remote).
Local Abbreviation iterate_containers :=
  (iterate_containers Remote transport self).
Local Abbreviation iterate_container_objects :=
  (iterate_container_objects Remote transport py_repr self).
Local Abbreviation get_container :=
  (get_container Remote transport py_repr self).
Local Abbreviation get_object := (get_object Remote transport py_repr self).
Local Abbreviation delete_object :=
  (delete_object Remote transport py_repr self).
Local Abbreviation create_container :=
  (create_container Remote transport self).
Local Abbreviation delete_container :=
  (delete_container Remote transport py_repr self).
Local Abbreviation download_object :=
  (download_object Remote transport py_repr self).
Local Abbreviation run := (run Remote transport py_repr self).
Local Abbreviation reachable := (reachable Remote transport py_repr self).
Local Abbreviation quiet := (quiet (Remote := Remote)).

Ltac quiet_step :=
  first
    [ apply quiet_request | apply quiet_lift | apply quiet_ret
    | apply quiet_raise
    | apply quiet_bind
    | match goal with
      | |- forall _, _ => intro
      | |- quiet (if ?b then _ else _) => destruct b
      end ].

Lemma quiet_iterate_containers : quiet iterate_containers.
Proof. unfold_driver. repeat quiet_step. Qed.

Lemma quiet_iterate_container_objects c : quiet (iterate_container_objects c).
Proof.
  unfold_driver. repeat quiet_step.
Qed.

Lemma quiet_get_container n : quiet (get_container n).
Proof. unfold_driver. repeat quiet_step. Qed.

Lemma quiet_get_object cn on : quiet (get_object cn on).
Proof.
  unfold_driver.
  apply quiet_bind; [apply quiet_get_container|]. repeat quiet_step.
Qed.

Lemma quiet_delete_object obj : quiet (delete_object obj).
Proof. unfold_driver. repeat quiet_step. Qed.

Lemma quiet_create_container n : quiet (create_container n).
Proof. unfold_driver. repeat quiet_step. Qed.

Lemma quiet_delete_container c : quiet (delete_container c).
Proof. unfold_driver. repeat quiet_step. Qed.

Lemma quiet_download_object obj dst ow dof :
  quiet (download_object obj dst ow dof).
Proof. unfold_driver. repeat quiet_step. Qed.

(** No call puts a dictionary into [gcs_params]. *)
Lemma run_quiet (c : call) (w : World) :
  gcs_params (run c w) = gcs_params w \/ gcs_params (run c w) = None.
Proof.
  destruct c; simpl.
  - apply quiet_iterate_containers.
  - apply quiet_iterate_container_objects.
  - apply quiet_get_container.
  - apply quiet_get_object.
  - apply quiet_delete_object.
  - apply quiet_create_container.
  - apply quiet_delete_container.
  - apply quiet_download_object.
Qed.

Lemma reachable_idle (w : World) : reachable w -> gcs_params w = None.
Proof.
  induction 1 as [s fs|c w _ IH]; [reflexivity|].
  destruct (run_quiet c w) as [H|H]; congruence.
Qed.

(** No statement of the driver touches the disk. *)
Lemma request_disk action method params body (w : World) :
  disk (snd (request Remote transport action method params body w)) = disk w.
Proof.
  unfold request, base_request, pre_connect_hook, bind, get_gcs_params,
    load, ret, lift, store, set_gcs_params.
  destruct (gcs_params w) as [l|] eqn:Hw; simpl.
  - destruct (dict_bool (deref w l)); simpl;
      destruct (transport _ _) as [[r|e] s]; simpl; try reflexivity;
      rewrite Hw; simpl; unfold deref; simpl;
      destruct (dict_bool _); simpl; try reflexivity;
      destruct (py_in _ _) as [[|]|]; simpl; try reflexivity;
      try (destruct (py_getitem _ _); reflexivity);
      destruct (bool_decide _); reflexivity.
  - destruct (transport _ _) as [[r|e] s]; simpl; [rewrite Hw|]; reflexivity.
Qed.

Lemma get_container_idle (n : value) (w : World) :
  gcs_params w = None ->
  let req := mkRequest "GET" ("/b/" ++ py_str py_repr n) ∅ None in
  get_container n w =
  (match fst (transport (remote w) req) with
   | Ok response => _to_container (object response)
   | Err e => Err e
   end, after_send transport w req).
Proof.
  intros Hw req. unfold_driver.
  rewrite (bind_request_idle transport _ _ _ _ _ w Hw); simpl. fold req.
  destruct (fst (transport (remote w) req)) as [response|e]; [|reflexivity].
  unfold bind, lift. destruct (_to_container (object response)); reflexivity.
Qed.

Lemma delete_container_idle (container : Container.t) (w : World) :
  gcs_params w = None ->
  let req :=
    mkRequest "DELETE" ("/b/" ++ py_str py_repr (Container.name container))
      ∅ None in
  delete_container container w =
  (match fst (transport (remote w) req) with
   | Ok response => Ok (eq_empty_str (object response))
   | Err e => Err e
   end, after_send transport w req).
Proof.
  intros Hw req. unfold_driver.
  rewrite (bind_request_idle transport _ _ _ _ _ w Hw); simpl. fold req.
  destruct (fst (transport (remote w) req)) as [response|e]; [|reflexivity].
  destruct (eq_empty_str (object response)); reflexivity.
Qed.

(** C4: on a connection in the state the driver keeps it in,
    [delete_container] sends one DELETE for [/b/{container.name}];
    it returns true when the response body is exactly empty, false for
    every other body the transport accepts, and when the transport
    reports a failure it raises that failure instead of returning. *)
Theorem delete_container_contract (container : Container.t) (w : World) :
  gcs_params w = None ->
  let req :=
    mkRequest "DELETE" ("/b/" ++ py_str py_repr (Container.name container))
      ∅ None in
  let out := delete_container container w in
  snd out = after_send transport w req /\
  match fst (transport (remote w) req) with
  | Ok response =>
      (object response = VStr "" -> fst out = Ok true) /\
      (object response <> VStr "" -> fst out = Ok false)
  | Err e => fst out = Err e
  end.
Proof.
  intros Hw req out. subst out.
  rewrite (delete_container_idle container w Hw). fold req. simpl.
  split; [reflexivity|].
  destruct (fst (transport (remote w) req)) as [response|e]; [|reflexivity].
  split; intros Hbody.
  - apply eq_empty_str_true in Hbody. rewrite Hbody. reflexivity.
  - apply eq_empty_str_false in Hbody. rewrite Hbody. reflexivity.
Qed.

(** Every object of a listing refers to the container the listing was
    asked for. *)
Lemma iterate_container_objects_container (container : Container.t)
    (w w' : World) (objects : list Object.t) :
  iterate_container_objects container w = (Ok objects, w') ->
  Forall (fun o => Object.container o = Some container) objects.
Proof.
  unfold_driver. unfold bind at 1.
  destruct (request _ _ _ _ _ _ w) as [[response|e] w1]; [|discriminate].
  unfold bind, lift, ret.
  destruct (_to_objects (object response) (Some container)) as [objs|] eqn:Hobjs;
    [|discriminate].
  intros [= <- _]. revert Hobjs. unfold _to_objects, rbind.
  destruct (py_getitem _ _); [|discriminate].
  destruct (py_iter _); [|discriminate].
  apply collect_Forall. intros item o. apply _to_object_container.
Qed.

Lemma get_object_idle (cn on : value) (w : World) :
  gcs_params w = None ->
  let get_c := mkRequest "GET" ("/b/" ++ py_str py_repr cn) ∅ None in
  let get_o :=
    mkRequest "GET"
      ("/b/" ++ py_str py_repr cn ++ "/o/" ++ py_str py_repr on) ∅ None in
  let w1 := after_send transport w get_c in
  get_object cn on w =
  match fst (get_container cn w) with
  | Err e => (Err e, w1)
  | Ok c =>
      (match fst (transport (remote w1) get_o) with
       | Ok response => _to_object (object response) (Some c)
       | Err e => Err e
       end, after_send transport w1 get_o)
  end.
Proof.
  intros Hw get_c get_o w1. unfold_get_object. unfold bind at 1.
  rewrite (get_container_idle cn w Hw). simpl. fold get_c. fold w1.
  destruct (fst (transport (remote w) get_c)) as [r|e]; [|reflexivity].
  destruct (_to_container (object r)) as [c|e]; [|reflexivity].
  rewrite (bind_request_idle transport _ _ _ _ _ w1 (after_send_idle transport w get_c)).
  simpl. fold get_o.
  destruct (fst (transport _ get_o)) as [r'|e]; [|reflexivity].
  unfold bind, lift.
  destruct (_to_object (object r') (Some c)); reflexivity.
Qed.

(** C5: [get_object] first resolves the container with
    [get_container], which sends GET [/b/{container_name}]; when that
    fails, [get_object] fails the same way, in the same state, and no
    request for the object is sent; when it returns a container, GET
    [/b/{container_name}/o/{object_name}] is sent next, and what
    [get_object] returns is the object the item-to-Object mapping
    builds from the answer to it with that container: an answer with
    [name], [size] and [md5Hash] gives the object with these fields
    inside the resolved container, and every object returned refers
    to that container.  The objects of a listing refer to the
    container the caller passed in, so no object is built without a
    container. *)
Theorem get_object_resolves_container_first (cn on : string) (w : World) :
  gcs_params w = None ->
  let get_c := mkRequest "GET" ("/b/" ++ cn) ∅ None in
  let get_o := mkRequest "GET" ("/b/" ++ cn ++ "/o/" ++ on) ∅ None in
  let first := get_container (VStr cn) w in
  let out := get_object (VStr cn) (VStr on) w in
  sent (snd first) = (sent w ++ [get_c])%list /\
  match fst first with
  | Err e => out = (Err e, snd first)
  | Ok c =>
      sent (snd out) = (sent w ++ [get_c; get_o])%list /\
      fst out =
        match fst (transport (remote (snd first)) get_o) with
        | Ok response => _to_object (object response) (Some c)
        | Err e => Err e
        end /\
      (forall d n s h,
         fst (transport (remote (snd first)) get_o) =
           Ok (mkResponse (VDict d)) ->
         d !! "name" = Some n ->
         d !! "size" = Some s ->
         d !! "md5Hash" = Some h ->
         fst out =
         Ok (Object.mk n s h (VDict d)
               (default (VDict ∅) (d !! "metadata")) (Some c))) /\
      (forall obj, fst out = Ok obj -> Object.container obj = Some c)
  end /\
  forall container w0 w1 objects,
    iterate_container_objects container w0 = (Ok objects, w1) ->
    Forall (fun o => Object.container o = Some container) objects.
Proof.
  intros Hw get_c get_o first out.
  split; [|split; [|apply iterate_container_objects_container]].
  - subst first. rewrite (get_container_idle (VStr cn) w Hw). reflexivity.
  - subst out first. rewrite (get_object_idle (VStr cn) (VStr on) w Hw).
    rewrite (get_container_idle (VStr cn) w Hw). simpl. fold get_c get_o.
    destruct (fst (transport (remote w) get_c)) as [r|e]; [|reflexivity].
    destruct (_to_container (object r)) as [c|e]; [|reflexivity].
    simpl. split; [rewrite <- app_assoc; reflexivity|].
    split; [reflexivity|]. split.
    + intros d n s h Hanswer Hn Hs Hh. rewrite Hanswer.
      unfold _to_object; simpl. rewrite Hn, Hs, Hh. reflexivity.
    + intros obj.
      destruct (fst (transport _ get_o)) as [r'|e]; [|discriminate].
      apply _to_object_container.
Qed.

Lemma iterate_containers_idle (w : World) :
  gcs_params w = None ->
  let req := mkRequest "GET" "/b" {[ "project" := project self ]} None in
  iterate_containers w =
  (match fst (transport (remote w) req) with
   | Ok response => _to_containers (object response)
   | Err e => Err e
   end, after_send transport w req).
Proof.
  intros Hw req. unfold_driver.
  rewrite (bind_request_idle transport _ _ _ _ _ w Hw); simpl. fold req.
  destruct (fst (transport (remote w) req)) as [response|e]; [|reflexivity].
  unfold bind, lift. destruct (_to_containers (object response)); reflexivity.
Qed.

Lemma iterate_container_objects_idle (container : Container.t) (w : World) :
  gcs_params w = None ->
  let req :=
    mkRequest "GET"
      ("/b/" ++ py_str py_repr (Container.name container) ++ "/o") ∅ None in
  iterate_container_objects container w =
  (match fst (transport (remote w) req) with
   | Ok response => _to_objects (object response) (Some container)
   | Err e => Err e
   end, after_send transport w req).
Proof.
  intros Hw req. unfold_driver.
  rewrite (bind_request_idle transport _ _ _ _ _ w Hw); simpl. fold req.
  destruct (fst (transport (remote w) req)) as [response|e]; [|reflexivity].
  unfold bind, lift.
  destruct (_to_objects (object response) (Some container)); reflexivity.
Qed.


(** C10 (amended): [gcs_params] is [None] on a fresh connection; a request that
    finds a non-empty dictionary there and returns leaves [None]; no
    driver operation puts a dictionary there.  So in every state
    reached by driver operations [gcs_params] is [None] before and
    after each operation, [pre_connect_hook] returns the parameters of
    the caller unchanged, and each listing operation hands exactly one
    request to the transport, whatever the answer to it holds. *)
Theorem gcs_params_invariant (w : World) :
  reachable w ->
  gcs_params w = None /\
  (forall c, gcs_params (run c w) = None) /\
  (forall params, pre_connect_hook Remote params w = (Ok params, w)) /\
  sent (run Call_iterate_containers w) =
    (sent w ++ [mkRequest "GET" "/b" {[ "project" := project self ]} None])%list /\
  (forall container,
     sent (run (Call_iterate_container_objects container) w) =
     (sent w ++
      [mkRequest "GET"
         ("/b/" ++ py_str py_repr (Container.name container) ++ "/o")
         ∅ None])%list) /\
  (forall s fs, gcs_params (GCSConnection Remote s fs) = None) /\
  (forall (w0 w1 : World) l action method params body response,
     gcs_params w0 = Some l ->
     dict_bool (deref w0 l) = true ->
     request Remote transport action method params body w0 = (Ok response, w1) ->
     gcs_params w1 = None) /\
  (forall (w0 : World) c,
     gcs_params (run c w0) = gcs_params w0 \/ gcs_params (run c w0) = None).
Proof.
  intros Hreach. pose proof (reachable_idle w Hreach) as Hw.
  split; [exact Hw|]. split.
  { intros c. apply reachable_idle. constructor. exact Hreach. }
  split; [intros params; apply pre_connect_hook_idle; exact Hw|].
  split; [simpl; rewrite (iterate_containers_idle w Hw); reflexivity|].
  split.
  { intros container. simpl.
    rewrite (iterate_container_objects_idle container w Hw). reflexivity. }
  split; [reflexivity|]. split.
  { intros w0 w1 l action method params body response.
    apply request_resets. }
  intros w0 c. apply run_quiet.
Qed.

Lemma download_object_disk obj dst ow dof (w : World) :
  disk (snd (download_object obj dst ow dof w)) = disk w.
Proof.
  unfold_driver. unfold bind at 1, lift.
  destruct (container_name_of obj) as [n|e]; [|reflexivity].
  unfold bind.
  pose proof (request_disk ("/b/" ++ py_str py_repr n ++ "/o/" ++
                py_str py_repr (Object.name obj)) "GET"
                (Some {[ "alt" := VStr "media" ]}) None w) as Hdisk.
  destruct (request _ _ _ _ _ _ w) as [[r|e] w1]; exact Hdisk.
Qed.

(** The exceptions [get_container] can end with, on a connection in
    the state the driver keeps it in: the one the transport raised, or
    the one the lookup of [name] in the answer raised. *)
Lemma get_container_errors (n : value) (w : World) (e : exn) :
  gcs_params w = None ->
  fst (get_container n w) = Err e ->
  fst (transport (remote w)
         (mkRequest "GET" ("/b/" ++ py_str py_repr n) ∅ None)) = Err e \/
  e = KeyError "name" \/ e = TypeError.
Proof.
  intros Hw. rewrite (get_container_idle n w Hw); simpl.
  destruct (fst (transport _ _)) as [response|e']; [|intros [= <-]; left; reflexivity].
  unfold _to_container.
  destruct (object response) as [| | | | |d]; simpl;
    try (intros [= <-]; right; right; reflexivity).
  destruct (d !! "name"); simpl; [discriminate|].
  intros [= <-]. right; left; reflexivity.
Qed.

End DriverProperties.

(** ** The connection at work *)

(** Once a caller has put a dictionary into [gcs_params], a request
    carries its entries in the query, records the token of the answer
    in that dictionary under [pageToken], and leaves [None] in the
    attribute. *)
Example request_carries_token :
  let out := request unit two_pages "/b/bucket-x/o" "GET" None None armed in
  params <$> sent (snd out) = [{[ "maxResults" := VInt 1 ]}] /\
  deref (snd out) 0 !! "pageToken" = Some (VStr "T") /\
  deref (snd out) 0 !! "maxResults" = Some (VInt 1) /\
  gcs_params (snd out) = None.
Proof. cbv zeta. repeat split; vm_compute; reflexivity. Qed.

(** ** The driver at work *)

(** C1: on a listing in two pages, [iterate_container_objects] hands
    one request to the transport, GET [/b/bucket-x/o] with an empty
    query, and returns the objects of the first page only; no second
    request with [pageToken=T] follows.  [gcs_params] is [None]
    afterwards. *)
Theorem iterate_container_objects_first_page_only :
  let out :=
    iterate_container_objects unit two_pages plain_names my_driver
      bucket_x fresh in
  sent (snd out) = [mkRequest "GET" "/b/bucket-x/o" ∅ None] /\
  length (sent (snd out)) <> 2 /\
  (exists objects,
     fst out = Ok objects /\
     Object.name <$> objects = [VStr "a"; VStr "b"]) /\
  gcs_params (snd out) = None.
Proof.
  cbv zeta. split; [vm_compute; reflexivity|].
  split; [vm_compute; discriminate|].
  split; [|vm_compute; reflexivity].
  eexists. split; vm_compute; reflexivity.
Qed.

(** C2: [download_object] sends GET [/b/bucket-x/o/file.txt] with the
    query [{alt: media}] and returns [None]; the body of the response
    is written nowhere.  Asked not to overwrite a destination that
    exists, it sends the request all the same and returns without
    failing (the file keeps its contents); with no file at the
    destination, there is none afterwards either. *)
Theorem download_object_discards_body :
  let get :=
    mkRequest "GET" "/b/bucket-x/o/file.txt" {[ "alt" := VStr "media" ]}
      None in
  let download :=
    download_object unit (answers (VStr "0123456789")) plain_names
      my_driver file_txt "/tmp/file.txt" false true in
  disk with_file !! "/tmp/file.txt" = Some "old contents" /\
  fst (download with_file) = Ok tt /\
  sent (snd (download with_file)) = [get] /\
  disk (snd (download with_file)) = disk with_file /\
  fst (download fresh) = Ok tt /\
  sent (snd (download fresh)) = [get] /\
  disk (snd (download fresh)) !! "/tmp/file.txt" = None.
Proof. cbv zeta. repeat split; vm_compute; reflexivity. Qed.

(** C3: [get_container("missing")] never ends with
    ContainerDoesNotExistError.  When the answer holds no record (an
    empty mapping, an empty body, null), the lookup of [name] raises
    [KeyError] or [TypeError]; when the transport reports that the
    bucket is not found, that exception passes through unchanged. *)
Theorem get_container_missing :
  let get_from t :=
    fst (get_container unit t plain_names my_driver (VStr "missing") fresh) in
  let not_found := Raised "ResourceNotFoundError" (VStr "Not Found") in
  get_from (answers (VDict ∅)) = Err (KeyError "name") /\
  get_from (answers (VStr "")) = Err TypeError /\
  get_from (answers VNone) = Err TypeError /\
  get_from (refuses not_found) = Err not_found /\
  ~ fails_with ContainerNotFound (get_from (answers (VDict ∅))) /\
  ~ fails_with ContainerNotFound (get_from (answers (VStr ""))) /\
  ~ fails_with ContainerNotFound (get_from (answers VNone)) /\
  ~ fails_with ContainerNotFound (get_from (refuses not_found)).
Proof.
  cbv zeta. repeat split; try (vm_compute; reflexivity);
    intros (e & He & Hcls); vm_compute in He; injection He as <-;
    discriminate Hcls.
Qed.

(** C9: [delete_object] sends its DELETE for
    [b/bucket-x/o/file.txt], without the leading slash of
    [/b/bucket-x/o/file.txt]; it returns true for an empty body and
    false for the body [{}]. *)
Theorem delete_object_path :
  let delete t :=
    delete_object unit t plain_names my_driver file_txt fresh in
  sent (snd (delete (answers (VStr "")))) =
    [mkRequest "DELETE" "b/bucket-x/o/file.txt" ∅ None] /\
  "b/bucket-x/o/file.txt" <> "/b/bucket-x/o/file.txt" /\
  fst (delete (answers (VStr ""))) = Ok true /\
  fst (delete (answers (VDict ∅))) = Ok false.
Proof.
  cbv zeta. repeat split; try (vm_compute; reflexivity). discriminate.
Qed.


(** C10, as stated, fails on a connection whose [gcs_params] refers to
    the dictionary [{"maxResults": 1}] when the transport raises: the
    request raises too and [gcs_params] is not set to [None], it still
    refers to the dictionary. *)
Lemma request_raising_counterexample :
  let not_found := Raised "ResourceNotFoundError" (VStr "Not Found") in
  let out := request unit (refuses not_found) "/b" "GET" None None armed in
  gcs_params armed = Some 0%nat /\
  dict_bool (deref armed 0) = true /\
  fst out = Err not_found /\
  gcs_params (snd out) = Some 0%nat /\
  gcs_params (snd out) <> None.
Proof.
  cbv zeta. repeat split; try (vm_compute; reflexivity).
  vm_compute. discriminate.
Qed.

(** ** Instances *)

Lemma delete_container_contract_witness :
  gcs_params fresh = None /\
  fst (delete_container unit (answers (VStr "")) plain_names my_driver
         bucket_x fresh) = Ok true.
Proof.
  split; [reflexivity|].
  destruct (delete_container_contract (answers (VStr "")) plain_names
              my_driver bucket_x fresh eq_refl) as [_ H].
  apply H. reflexivity.
Defined.

Lemma get_object_resolves_container_first_witness :
  gcs_params fresh = None /\
  sent (snd (get_object unit one_file plain_names my_driver
               (VStr "bucket-x") (VStr "file.txt") fresh)) =
  [mkRequest "GET" "/b/bucket-x" ∅ None;
   mkRequest "GET" "/b/bucket-x/o/file.txt" ∅ None] /\
  fst (get_object unit one_file plain_names my_driver
         (VStr "bucket-x") (VStr "file.txt") fresh) = Ok file_txt.
Proof.
  split; [reflexivity|].
  destruct (get_object_resolves_container_first one_file plain_names
              my_driver "bucket-x" "file.txt" fresh eq_refl)
    as (_ & H & _).
  destruct H as (Hsent & _ & Hbuilt & _).
  split; [exact Hsent|].
  rewrite (Hbuilt (object_fields "file.txt") (VStr "file.txt") (VInt 10)
             (VStr "abc123"));
    vm_compute; reflexivity.
Defined.


Lemma gcs_params_invariant_witness :
  gcs_params (run unit two_pages plain_names my_driver
                (Call_iterate_container_objects bucket_x) fresh) = None.
Proof.
  refine (proj1 (gcs_params_invariant two_pages plain_names my_driver _ _)).
  apply reachable_call. apply reachable_init.
Defined.

(** * Further properties *)

(** ** The connection with a dictionary in [gcs_params] *)

Section ConnectionArmed.
Context {Remote : Type}.
Variable transport : Remote -> Request -> result Response * Remote.

Local Abbreviation World := (World Remote).
Local Abbreviation request := (request Remote transport).

Lemma dict_bool_false (d : gmap string value) :
  dict_bool d = false -> d = ∅.
Proof.
  unfold dict_bool. intros H. apply negb_false_iff in H.
  apply bool_decide_eq_true in H. by apply map_to_list_empty_iff.
Qed.

Lemma dict_bool_empty : dict_bool ∅ = false.
Proof. reflexivity. Qed.

(** What a request does when it finds a non-empty dictionary in
    [gcs_params], case by case. *)
Lemma request_armed action method params body (w : World) l :
  gcs_params w = Some l ->
  dict_bool (deref w l) = true ->
  let bag := deref w l in
  let req := mkRequest method action (bag ∪ default ∅ params) body in
  let s := snd (transport (remote w) req) in
  let w1 :=
    mkWorld Remote (request_path w) (Some l) (heap w) (sent w ++ [req]) s
      (disk w) in
  let done h :=
    mkWorld Remote (request_path w) None h (sent w ++ [req]) s (disk w) in
  request action method params body w =
  match fst (transport (remote w) req) with
  | Err e => (Err e, w1)
  | Ok r =>
      match py_in "nextPageToken" (object r) with
      | Err e => (Err e, w1)
      | Ok true =>
          match py_getitem (object r) "nextPageToken" with
          | Err e => (Err e, w1)
          | Ok t => (Ok r, done (<[l := <["pageToken" := t]> bag]> (heap w)))
          end
      | Ok false =>
          (Ok r, done (if bool_decide (is_Some (bag !! "pageToken"))
                       then <[l := delete "pageToken" bag]> (heap w)
                       else heap w))
      end
  end.
Proof.
  intros Hl Hbag bag req s w1 done. subst bag.
  unfold request, base_request, bind at 1 2.
  unfold pre_connect_hook, bind at 1 2, get_gcs_params, load.
  rewrite Hl, Hbag. unfold ret at 1. fold req.
  subst s w1 done.
  destruct (transport (remote w) req) as [[r|e] s]; simpl;
    [|rewrite Hl; reflexivity].
  unfold bind at 1 2; simpl. rewrite Hl; simpl.
  unfold load, deref, bind at 1; simpl. fold (deref w l).
  rewrite Hbag. unfold bind at 1, lift.
  destruct (py_in "nextPageToken" (object r)) as [[|]|]; [| |reflexivity].
  - unfold bind at 1 2.
    destruct (py_getitem (object r) "nextPageToken"); reflexivity.
  - unfold bind at 1. destruct (bool_decide _); reflexivity.
Qed.

Lemma dict_bool_insert (d : gmap string value) k v :
  dict_bool (<[k := v]> d) = true.
Proof.
  destruct (dict_bool (<[k := v]> d)) eqn:H; [reflexivity|].
  apply dict_bool_false in H. exfalso. exact (insert_non_empty _ _ _ H).
Qed.

(** What a request does when [gcs_params] refers to an empty
    dictionary. *)
Lemma request_unarmed action method params body (w : World) l :
  gcs_params w = Some l ->
  deref w l = ∅ ->
  let req := mkRequest method action (default ∅ params) body in
  request action method params body w =
  (fst (transport (remote w) req),
   mkWorld Remote (request_path w) (Some l) (heap w) (sent w ++ [req])
     (snd (transport (remote w) req)) (disk w)).
Proof.
  intros Hl Hbag req.
  unfold request, base_request, bind at 1 2.
  unfold pre_connect_hook, bind at 1 2, get_gcs_params, load.
  rewrite Hl, Hbag, dict_bool_empty. unfold ret at 1. fold req.
  destruct (transport (remote w) req) as [[r|e] s]; simpl;
    [|rewrite Hl; reflexivity].
  unfold bind at 1 2; simpl. rewrite Hl; simpl.
  unfold load, deref, bind at 1; simpl. fold (deref w l).
  rewrite Hbag, dict_bool_empty. reflexivity.
Qed.

(** What a request does when it finds a non-empty dictionary and the
    answer is a JSON object. *)
Lemma request_armed_dict action method params body (w : World) l d s :
  gcs_params w = Some l ->
  dict_bool (deref w l) = true ->
  let req := mkRequest method action (deref w l ∪ default ∅ params) body in
  transport (remote w) req = (Ok (mkResponse (VDict d)), s) ->
  exists h,
    request action method params body w =
    (Ok (mkResponse (VDict d)),
     mkWorld Remote (request_path w) None h (sent w ++ [req]) s (disk w)) /\
    default ∅ (h !! l) =
      match d !! "nextPageToken" with
      | Some token => <["pageToken" := token]> (deref w l)
      | None => delete "pageToken" (deref w l)
      end /\
    (forall l', l' <> l -> h !! l' = heap w !! l').
Proof.
  intros Hl Hbag req Hanswer.
  rewrite (request_armed action method params body w l Hl Hbag). cbv zeta.
  fold req. rewrite Hanswer. simpl.
  destruct (d !! "nextPageToken") as [token|] eqn:Htoken.
  - rewrite bool_decide_eq_true_2 by eauto.
    eexists. split; [reflexivity|]. split.
    + rewrite lookup_insert_eq. reflexivity.
    + intros l' Hne. apply lookup_insert_ne. congruence.
  - rewrite bool_decide_eq_false_2 by (intros [? ?]; discriminate).
    eexists. split; [reflexivity|].
    destruct (deref w l !! "pageToken") as [page|] eqn:Hpage.
    + rewrite bool_decide_eq_true_2 by eauto. split.
      * rewrite lookup_insert_eq. reflexivity.
      * intros l' Hne. apply lookup_insert_ne. congruence.
    + rewrite bool_decide_eq_false_2 by (intros [? ?]; discriminate). split.
      * fold (deref w l). symmetry. apply delete_id. exact Hpage.
      * reflexivity.
Qed.

(** X1: [pre_connect_hook] leaves the state alone and returns the
    parameters of the caller updated with the entries of the
    dictionary in [gcs_params]: where both have a key, the entry of
    the dictionary wins; with [None] or an empty dictionary there, the
    parameters come back as they are. *)
Theorem pre_connect_hook_merge (w : World) (params : gmap string value) :
  exists q,
    pre_connect_hook Remote params w = (Ok q, w) /\
    forall k,
      q !! k =
      match gcs_params w with
      | Some l =>
          match deref w l !! k with
          | Some v => Some v
          | None => params !! k
          end
      | None => params !! k
      end.
Proof.
  unfold pre_connect_hook, bind, get_gcs_params, load, ret.
  destruct (gcs_params w) as [l|]; [|exists params; split; reflexivity].
  destruct (dict_bool (deref w l)) eqn:Hbag.
  - exists (deref w l ∪ params). split; [reflexivity|]. intros k.
    rewrite lookup_union. destruct (deref w l !! k), (params !! k); reflexivity.
  - exists params. split; [reflexivity|]. intros k.
    rewrite (dict_bool_false _ Hbag), lookup_empty. reflexivity.
Qed.

(** X2: with an empty dictionary in [gcs_params] a request sends the
    parameters of the caller as they are and returns what the
    transport gives, and the attribute keeps referring to that
    dictionary: it is reset to [None] only when the dictionary holds
    something. *)
Theorem request_empty_bag action method params body (w : World) l :
  gcs_params w = Some l ->
  deref w l = ∅ ->
  let req := mkRequest method action (default ∅ params) body in
  let out := request action method params body w in
  fst out = fst (transport (remote w) req) /\
  sent (snd out) = (sent w ++ [req])%list /\
  gcs_params (snd out) = Some l /\
  heap (snd out) = heap w.
Proof.
  intros Hl Hbag req out. subst out.
  rewrite (request_unarmed action method params body w l Hl Hbag).
  repeat split.
Qed.

(** X3: in every state and whatever the outcome, a request hands
    exactly one request to the transport, with the method, the action
    and the body of the caller and the parameters [pre_connect_hook]
    returns; it leaves the disk and the base path alone, changes no
    dictionary but the one [gcs_params] refers to, and re-raises what
    the transport raises. *)
Theorem request_sends_once action method params body (w : World) :
  exists q,
    pre_connect_hook Remote (default ∅ params) w = (Ok q, w) /\
    let req := mkRequest method action q body in
    let out := request action method params body w in
    sent (snd out) = (sent w ++ [req])%list /\
    remote (snd out) = snd (transport (remote w) req) /\
    disk (snd out) = disk w /\
    request_path (snd out) = request_path w /\
    (forall l, gcs_params w <> Some l -> heap (snd out) !! l = heap w !! l) /\
    (forall e, fst (transport (remote w) req) = Err e -> fst out = Err e).
Proof.
  destruct (gcs_params w) as [l|] eqn:Hl.
  - destruct (dict_bool (deref w l)) eqn:Hbag.
    + exists (deref w l ∪ default ∅ params). split.
      { unfold pre_connect_hook, bind, get_gcs_params, load, ret.
        rewrite Hl, Hbag. reflexivity. }
      cbv zeta. rewrite (request_armed action method params body w l Hl Hbag).
      cbv zeta.
      destruct (fst (transport (remote w) _)) as [r|e].
      * destruct (py_in "nextPageToken" (object r)) as [[|]|].
        -- destruct (py_getitem (object r) "nextPageToken");
             repeat split; try discriminate.
           intros l' Hne. apply lookup_insert_ne. congruence.
        -- repeat split; try discriminate.
           intros l' Hne. cbn [snd heap].
           destruct (bool_decide (is_Some (deref w l !! "pageToken")));
             [|reflexivity].
           apply lookup_insert_ne. congruence.
        -- repeat split; discriminate.
      * repeat split. intros e' [= <-]. reflexivity.
    + exists (default ∅ params). split.
      { unfold pre_connect_hook, bind, get_gcs_params, load, ret.
        rewrite Hl, Hbag. reflexivity. }
      cbv zeta.
      rewrite (request_unarmed action method params body w l Hl
                 (dict_bool_false _ Hbag)).
      repeat split. intros e He. exact He.
  - exists (default ∅ params). split; [apply pre_connect_hook_idle; exact Hl|].
    cbv zeta. rewrite (request_idle transport action method params body w Hl).
    repeat split. intros e He. exact He.
Qed.

(** X4: when a request finds a non-empty dictionary in [gcs_params]
    and the answer is a JSON object, it returns the answer, records
    the [nextPageToken] of the answer in that dictionary under
    [pageToken] (or removes [pageToken] when the answer has none),
    keeps the other entries, leaves the other dictionaries alone and
    puts [None] into [gcs_params]. *)
Theorem request_threads_token action method params body (w : World) l d s :
  gcs_params w = Some l ->
  dict_bool (deref w l) = true ->
  transport (remote w)
    (mkRequest method action (deref w l ∪ default ∅ params) body) =
    (Ok (mkResponse (VDict d)), s) ->
  let out := request action method params body w in
  fst out = Ok (mkResponse (VDict d)) /\
  gcs_params (snd out) = None /\
  deref (snd out) l =
    match d !! "nextPageToken" with
    | Some token => <["pageToken" := token]> (deref w l)
    | None => delete "pageToken" (deref w l)
    end /\
  (forall l', l' <> l -> heap (snd out) !! l' = heap w !! l').
Proof.
  intros Hl Hbag Hanswer out. subst out.
  destruct (request_armed_dict action method params body w l d s Hl Hbag
              Hanswer) as (h & -> & Hderef & Hframe).
  repeat split; [exact Hderef | exact Hframe].
Qed.

(** X5: a request that raises, because the transport raised or because
    the answer cannot be searched for [nextPageToken], leaves
    [gcs_params] and every dictionary as they were: the attribute is
    reset on a normal return only. *)
Theorem request_failure_keeps_bag action method params body (w : World) e :
  fst (request action method params body w) = Err e ->
  gcs_params (snd (request action method params body w)) = gcs_params w /\
  heap (snd (request action method params body w)) = heap w.
Proof.
  destruct (gcs_params w) as [l|] eqn:Hl.
  - destruct (dict_bool (deref w l)) eqn:Hbag.
    + rewrite (request_armed action method params body w l Hl Hbag). cbv zeta.
      destruct (fst (transport (remote w) _)) as [r|e']; [|split; reflexivity].
      destruct (py_in "nextPageToken" (object r)) as [[|]|];
        [|discriminate|split; reflexivity].
      destruct (py_getitem (object r) "nextPageToken");
        [discriminate|split; reflexivity].
    + rewrite (request_unarmed action method params body w l Hl
                 (dict_bool_false _ Hbag)). split; reflexivity.
  - rewrite (request_idle transport action method params body w Hl).
    split; reflexivity.
Qed.

(** X6: the continuation protocol works for a caller who keeps hold of
    the dictionary: after a request that found the dictionary in
    [gcs_params] and got an answer with [nextPageToken: token], once
    the caller assigns the same dictionary to [gcs_params] again, the
    parameters of the next request carry [pageToken = token]. *)
Theorem next_request_carries_token action method params body
    (w : World) l d s token (params' : gmap string value) :
  gcs_params w = Some l ->
  dict_bool (deref w l) = true ->
  transport (remote w)
    (mkRequest method action (deref w l ∪ default ∅ params) body) =
    (Ok (mkResponse (VDict d)), s) ->
  d !! "nextPageToken" = Some token ->
  let w1 := snd (request action method params body w) in
  let w2 := snd (set_gcs_params Remote (Some l) w1) in
  exists q,
    pre_connect_hook Remote params' w2 = (Ok q, w2) /\
    q !! "pageToken" = Some token.
Proof.
  intros Hl Hbag Hanswer Htoken w1 w2.
  destruct (request_armed_dict action method params body w l d s Hl Hbag
              Hanswer) as (h & Hreq & Hderef & _).
  rewrite Htoken in Hderef.
  assert (Hbag2 : deref w2 l = <["pageToken" := token]> (deref w l)).
  { subst w2 w1. rewrite Hreq. exact Hderef. }
  exists (deref w2 l ∪ params'). split.
  - unfold pre_connect_hook, bind, get_gcs_params, load, ret.
    change (gcs_params w2) with (Some l). cbv beta iota.
    rewrite Hbag2.
    rewrite (dict_bool_insert (deref w l) "pageToken" token). reflexivity.
  - rewrite Hbag2. apply lookup_union_Some_l. apply lookup_insert_eq.
Qed.

End ConnectionArmed.

(** ** What the mapping functions accept and return *)

Lemma _to_container_cases (item : value) :
  _to_container item =
  match item with
  | VDict d =>
      match d !! "name" with
      | Some n => Ok (Container.mk n (VDict d))
      | None => Err (KeyError "name")
      end
  | _ => Err TypeError
  end.
Proof.
  destruct item as [| | | | |d]; try reflexivity. apply _to_container_dict.
Qed.

Lemma _to_container_consistent (item : value) (c : Container.t) :
  _to_container item = Ok c -> container_consistent c.
Proof.
  rewrite _to_container_cases. destruct item as [| | | | |d]; try discriminate.
  destruct (d !! "name") as [n|] eqn:Hn; [|discriminate].
  intros [= <-]. unfold container_consistent; simpl. rewrite Hn. reflexivity.
Qed.

Lemma _to_object_complete (item : value) (c : option Container.t) :
  complete item ->
  exists o, _to_object item c = Ok o /\
            py_getitem item "name" = Ok (Object.name o) /\
            py_getitem item "size" = Ok (Object.size o) /\
            py_getitem item "md5Hash" = Ok (Object.hash o) /\
            py_get item "metadata" (VDict ∅) = Ok (Object.meta_data o) /\
            Object.extra o = item /\
            Object.container o = c.
Proof.
  intros (d & n & s & h & -> & Hn & Hs & Hh).
  exists (Object.mk n s h (VDict d) (default (VDict ∅) (d !! "metadata")) c).
  unfold _to_object; simpl. rewrite Hn, Hs, Hh. simpl. repeat split.
Qed.

Lemma _to_object_consistent (item : value) (c : option Container.t)
    (o : Object.t) :
  _to_object item c = Ok o -> object_consistent o.
Proof.
  unfold _to_object, rbind.
  destruct (py_get item "metadata" (VDict ∅)) as [m|] eqn:Hm; [|discriminate].
  destruct (py_getitem item "name") as [n|] eqn:Hn; [|discriminate].
  destruct (py_getitem item "size") as [s|] eqn:Hs; [|discriminate].
  destruct (py_getitem item "md5Hash") as [h|] eqn:Hh; [|discriminate].
  intros [= <-]. unfold object_consistent; simpl. auto.
Qed.

Lemma _to_object_errors (item : value) (c : option Container.t) (e : exn) :
  _to_object item c = Err e ->
  e ∈ [KeyError "name"; KeyError "size"; KeyError "md5Hash";
       AttributeError "get"].
Proof.
  destruct item as [| | | | |d];
    try (intros [= <-]; do 3 right; left).
  unfold _to_object; simpl.
  destruct (d !! "name"); simpl; [|intros [= <-]; left].
  destruct (d !! "size"); simpl; [|intros [= <-]; right; left].
  destruct (d !! "md5Hash"); simpl; [discriminate|].
  intros [= <-]; do 2 right; left.
Qed.

(** The loop stops at the first item that is rejected. *)
Lemma collect_stops {A} (f : value -> result A) (good : list value)
    (bad : value) (rest : list value) (e : exn) :
  Forall (fun item => exists a, f item = Ok a) good ->
  f bad = Err e ->
  collect f (good ++ bad :: rest) = Err e.
Proof.
  intros Hgood Hbad. induction Hgood as [|item good [a Ha] _ IH]; simpl.
  - rewrite Hbad. reflexivity.
  - rewrite Ha; simpl. rewrite IH. reflexivity.
Qed.

Lemma collect_complete (c : option Container.t) (items : list value) :
  Forall complete items ->
  exists os,
    collect (fun item => _to_object item c) items = Ok os /\
    Forall2 (fun o item =>
               py_getitem item "name" = Ok (Object.name o) /\
               py_getitem item "size" = Ok (Object.size o) /\
               py_getitem item "md5Hash" = Ok (Object.hash o) /\
               py_get item "metadata" (VDict ∅) = Ok (Object.meta_data o) /\
               Object.extra o = item /\
               Object.container o = c) os items.
Proof.
  induction 1 as [|item items Hitem _ (os & Hos & Hall)]; simpl.
  - exists []. split; [reflexivity | constructor].
  - destruct (_to_object_complete item c Hitem) as (o & Ho & Hfields).
    exists (o :: os). rewrite Ho; simpl. rewrite Hos; simpl.
    split; [reflexivity | constructor; assumption].
Qed.

(** X7: the listing mappings are all or nothing: when the items before
    a malformed one are well formed, [_to_containers] and
    [_to_objects] raise what the mapping of the first malformed item
    raises, and return no partial list, whatever follows it. *)
Theorem mapping_first_error (d : gmap string value)
    (good : list value) (bad : value) (rest : list value) :
  d !! "items" = Some (VList (good ++ bad :: rest)) ->
  (forall e, Forall named good -> _to_container bad = Err e ->
             _to_containers (VDict d) = Err e) /\
  (forall c e, Forall complete good -> _to_object bad c = Err e ->
               _to_objects (VDict d) c = Err e).
Proof.
  intros Hitems. split.
  - intros e Hgood Hbad. unfold _to_containers; simpl. rewrite Hitems; simpl.
    apply collect_stops; [|exact Hbad].
    eapply Forall_impl; [exact Hgood|]. intros item Hitem.
    destruct (_to_container_named item Hitem) as (c & Hc & _). eauto.
  - intros c e Hgood Hbad. unfold _to_objects; simpl. rewrite Hitems; simpl.
    apply collect_stops; [|exact Hbad].
    eapply Forall_impl; [exact Hgood|]. intros item Hitem.
    destruct (_to_object_complete item c Hitem) as (o & Ho & _). eauto.
Qed.

(** ** The driver, operation by operation *)

Section DriverExtras.
Context {Remote : Type}.
Variable transport : Remote -> Request -> result Response * Remote.
Variable py_repr : value -> string.
Variable self : GoogleStorageDriver.

Local Abbreviation World := (World Remote).
Local Abbreviation py_str := (py_str py_repr).
Local Abbreviation request := (request Remote transport).
Local Abbreviation after_send := (after_send transport).
Local Abbreviation iterate_containers :=
  (iterate_containers Remote transport self).
Local Abbreviation iterate_container_objects :=
  (iterate_container_objects Remote transport py_repr self).
Local Abbreviation get_container :=
  (get_container Remote transport py_repr self).
Local Abbreviation get_object := (get_object Remote transport py_repr self).
Local Abbreviation delete_object :=
  (delete_object Remote transport py_repr self).
Local Abbreviation create_container :=
  (create_container Remote transport self).
Local Abbreviation delete_container :=
  (delete_container Remote transport py_repr self).
Local Abbreviation download_object :=
  (download_object Remote transport py_repr self).
Local Abbreviation run := (run Remote transport py_repr self).

(** X8: on a connection in the state the driver keeps it in,
    [create_container] sends one POST for [/b] with the query
    [{project: <project id>}] and the body [{name: container_name}].
    It returns a container built from the answer: its name is the
    [name] field of the answer, not the name asked for, and [extra]
    is the answer.  An answer without [name] raises [KeyError], an
    answer that is not a JSON object [TypeError], and what the
    transport raises is raised. *)
Theorem create_container_contract (n : value) (w : World) :
  gcs_params w = None ->
  let req :=
    mkRequest "POST" "/b" {[ "project" := project self ]}
      (Some (VDict {[ "name" := n ]})) in
  let out := create_container n w in
  snd out = after_send w req /\
  match fst (transport (remote w) req) with
  | Ok response =>
      match object response with
      | VDict d =>
          match d !! "name" with
          | Some n' => fst out = Ok (Container.mk n' (VDict d))
          | None => fst out = Err (KeyError "name")
          end
      | _ => fst out = Err TypeError
      end
  | Err e => fst out = Err e
  end.
Proof.
  intros Hw req out. subst out. unfold_driver.
  rewrite (bind_request_idle transport _ _ _ _ _ w Hw); simpl. fold req.
  destruct (fst (transport (remote w) req)) as [response|e];
    [|split; reflexivity].
  unfold bind, lift. rewrite _to_container_cases.
  destruct (object response) as [| | | | |d]; try (split; reflexivity).
  destruct (d !! "name"); split; reflexivity.
Qed.

(** X9: on a connection in the state the driver keeps it in,
    [get_container] sends one GET for [/b/{container_name}] and
    returns a container exactly when the answer is a JSON object with
    a [name] field; the container carries the name and the record of
    the answer, whatever name was asked for.  Otherwise it raises
    [KeyError] (no [name]), [TypeError] (not a JSON object) or what
    the transport raised. *)
Theorem get_container_contract (n : value) (w : World) :
  gcs_params w = None ->
  let req := mkRequest "GET" ("/b/" ++ py_str n) ∅ None in
  let out := get_container n w in
  snd out = after_send w req /\
  match fst (transport (remote w) req) with
  | Ok response =>
      match object response with
      | VDict d =>
          match d !! "name" with
          | Some n' => fst out = Ok (Container.mk n' (VDict d))
          | None => fst out = Err (KeyError "name")
          end
      | _ => fst out = Err TypeError
      end
  | Err e => fst out = Err e
  end.
Proof.
  intros Hw req out. subst out.
  rewrite (get_container_idle transport py_repr self n w Hw). fold req. simpl.
  split; [reflexivity|].
  destruct (fst (transport (remote w) req)) as [response|e]; [|reflexivity].
  rewrite _to_container_cases.
  destruct (object response) as [| | | | |d]; try reflexivity.
  destruct (d !! "name"); reflexivity.
Qed.

(** X10: [delete_object] reads [obj.container.name] first: for an
    object without a container it raises [AttributeError] and sends
    nothing.  Otherwise, on a connection in the state the driver
    keeps it in, it sends one DELETE for the path it formats as
    [b/{container.name}/o/{object.name}], returns whether the body of
    the answer is the empty string, and raises what the transport
    raises. *)
Theorem delete_object_contract (obj : Object.t) (w : World) :
  match Object.container obj with
  | None => delete_object obj w = (Err (AttributeError "name"), w)
  | Some c =>
      gcs_params w = None ->
      let req :=
        mkRequest "DELETE"
          ("b/" ++ py_str (Container.name c) ++ "/o/" ++
           py_str (Object.name obj)) ∅ None in
      delete_object obj w =
      (match fst (transport (remote w) req) with
       | Ok response => Ok (eq_empty_str (object response))
       | Err e => Err e
       end, after_send w req)
  end.
Proof.
  unfold_driver. unfold container_name_of.
  destruct (Object.container obj) as [c|]; [|reflexivity].
  intros Hw. unfold bind at 1, lift.
  rewrite (bind_request_idle transport _ _ _ _ _ w Hw); simpl.
  destruct (fst (transport (remote w) _)) as [response|e]; [|reflexivity].
  destruct (eq_empty_str (object response)); reflexivity.
Qed.

(** X11: an answer to a listing that is a JSON object without [items]
    (what the service sends for an empty result) makes the listing
    raise [KeyError('items')], after its one request, instead of
    returning an empty list. *)
Theorem listing_without_items (container : Container.t) (w : World)
    (d : gmap string value) :
  gcs_params w = None ->
  d !! "items" = None ->
  let list_b := mkRequest "GET" "/b" {[ "project" := project self ]} None in
  let list_o :=
    mkRequest "GET" ("/b/" ++ py_str (Container.name container) ++ "/o")
      ∅ None in
  (fst (transport (remote w) list_b) = Ok (mkResponse (VDict d)) ->
   iterate_containers w = (Err (KeyError "items"), after_send w list_b)) /\
  (fst (transport (remote w) list_o) = Ok (mkResponse (VDict d)) ->
   iterate_container_objects container w =
   (Err (KeyError "items"), after_send w list_o)).
Proof.
  intros Hw Hitems list_b list_o. split; intros Hanswer.
  - rewrite (iterate_containers_idle transport self w Hw). fold list_b.
    rewrite Hanswer. unfold _to_containers; simpl. rewrite Hitems.
    reflexivity.
  - rewrite (iterate_container_objects_idle transport py_repr self container
               w Hw). fold list_o.
    rewrite Hanswer. unfold _to_objects; simpl. rewrite Hitems.
    reflexivity.
Qed.

(** X12: when the answer to the object listing holds [k] records with
    [name], [size] and [md5Hash] under [items],
    [iterate_container_objects] sends one GET for
    [/b/{container.name}/o] and returns exactly [k] objects in the
    order of the answer; the i-th takes name, size, hash and metadata
    (the empty dictionary when absent) from the i-th record, keeps the
    record in [extra] and refers to the container passed in. *)
Theorem iterate_container_objects_yields_all (container : Container.t)
    (w : World) (response : Response) (items : list value) :
  gcs_params w = None ->
  let req :=
    mkRequest "GET" ("/b/" ++ py_str (Container.name container) ++ "/o")
      ∅ None in
  fst (transport (remote w) req) = Ok response ->
  py_getitem (object response) "items" = Ok (VList items) ->
  Forall complete items ->
  exists objects,
    iterate_container_objects container w = (Ok objects, after_send w req) /\
    length objects = length items /\
    Forall2 (fun o item =>
               py_getitem item "name" = Ok (Object.name o) /\
               py_getitem item "size" = Ok (Object.size o) /\
               py_getitem item "md5Hash" = Ok (Object.hash o) /\
               py_get item "metadata" (VDict ∅) = Ok (Object.meta_data o) /\
               Object.extra o = item /\
               Object.container o = Some container) objects items.
Proof.
  intros Hw req Hresp Hitems Hcomplete.
  destruct (collect_complete (Some container) items Hcomplete)
    as (os & Hos & Hall).
  exists os.
  rewrite (iterate_container_objects_idle transport py_repr self container
             w Hw). fold req.
  rewrite Hresp. unfold _to_objects. rewrite Hitems; simpl. rewrite Hos.
  repeat split; [|exact Hall].
  exact (Forall2_length _ _ _ Hall).
Qed.

(** X13: on a connection in the state the driver keeps it in, when the
    answer to GET [/b/{container_name}] is a JSON object with a
    [name] and the answer to GET
    [/b/{container_name}/o/{object_name}] is a JSON object with
    [name], [size] and [md5Hash], [get_object] returns the object
    built from the second answer (metadata defaulting to the empty
    dictionary, the whole answer in [extra]) inside the container
    built from the first. *)
Theorem get_object_returns (cn on : value) (w : World)
    (d1 d2 : gmap string value) (n1 n s h : value) :
  gcs_params w = None ->
  let get_c := mkRequest "GET" ("/b/" ++ py_str cn) ∅ None in
  let get_o :=
    mkRequest "GET" ("/b/" ++ py_str cn ++ "/o/" ++ py_str on) ∅ None in
  fst (transport (remote w) get_c) = Ok (mkResponse (VDict d1)) ->
  d1 !! "name" = Some n1 ->
  fst (transport (snd (transport (remote w) get_c)) get_o) =
    Ok (mkResponse (VDict d2)) ->
  d2 !! "name" = Some n ->
  d2 !! "size" = Some s ->
  d2 !! "md5Hash" = Some h ->
  fst (get_object cn on w) =
  Ok (Object.mk n s h (VDict d2) (default (VDict ∅) (d2 !! "metadata"))
        (Some (Container.mk n1 (VDict d1)))).
Proof.
  intros Hw get_c get_o Hfirst Hn1 Hsecond Hn Hs Hh.
  rewrite (get_object_idle transport py_repr self cn on w Hw).
  rewrite (get_container_idle transport py_repr self cn w Hw).
  cbv zeta. fold get_c get_o. simpl. rewrite Hfirst. simpl.
  rewrite _to_container_dict, Hn1. simpl.
  rewrite Hsecond. unfold _to_object; simpl. rewrite Hn, Hs, Hh. reflexivity.
Qed.

(** X14: on a connection in the state the driver keeps it in,
    [get_object] raises only what the transport raised for one of its
    two requests or what a lookup in an answer raised: [KeyError] for
    a missing [name], [size] or [md5Hash], [TypeError] for a bucket
    answer that is not a JSON object, [AttributeError] for an object
    answer that is not one.  The branch that names
    [ObjectDoesNotExistError] is never taken. *)
Theorem get_object_errors (cn on : value) (w : World) (e : exn) :
  gcs_params w = None ->
  fst (get_object cn on w) = Err e ->
  let get_c := mkRequest "GET" ("/b/" ++ py_str cn) ∅ None in
  let get_o :=
    mkRequest "GET" ("/b/" ++ py_str cn ++ "/o/" ++ py_str on) ∅ None in
  fst (transport (remote w) get_c) = Err e \/
  fst (transport (snd (transport (remote w) get_c)) get_o) = Err e \/
  e ∈ [KeyError "name"; KeyError "size"; KeyError "md5Hash"; TypeError;
       AttributeError "get"].
Proof.
  intros Hw. rewrite (get_object_idle transport py_repr self cn on w Hw).
  rewrite (get_container_idle transport py_repr self cn w Hw).
  cbv zeta. simpl.
  destruct (fst (transport (remote w) _)) as [r1|e1];
    [|intros [= <-]; left; reflexivity].
  rewrite _to_container_cases.
  destruct (object r1) as [| | | | |d1];
    try (intros [= <-]; right; right; do 3 right; left).
  destruct (d1 !! "name") as [n1|]; [|intros [= <-]; right; right; left].
  simpl.
  destruct (fst (transport _ _)) as [r2|e2];
    [|intros [= <-]; right; left; reflexivity].
  intros Hobj. right; right.
  apply _to_object_errors in Hobj.
  repeat match goal with
         | H : _ ∈ _ :: _ |- _ => apply elem_of_cons in H; destruct H as [->|H]
         | H : _ ∈ [] |- _ => apply elem_of_nil in H; destruct H
         end.
  - left.
  - right; left.
  - do 2 right; left.
  - do 4 right; left.
Qed.

Lemma get_container_consistent (n : value) (w w' : World) (c : Container.t) :
  get_container n w = (Ok c, w') -> container_consistent c.
Proof.
  unfold_driver. unfold bind at 1.
  destruct (request _ _ _ _ w) as [[r|e] w1]; [|discriminate].
  unfold bind, lift, ret.
  destruct (_to_container (object r)) as [c'|] eqn:Hc; [|discriminate].
  simpl. intros [= <- _]. exact (_to_container_consistent _ _ Hc).
Qed.

Lemma create_container_consistent (n : value) (w w' : World)
    (c : Container.t) :
  create_container n w = (Ok c, w') -> container_consistent c.
Proof.
  unfold_driver. unfold bind at 1.
  destruct (request _ _ _ _ w) as [[r|e] w1]; [|discriminate].
  unfold bind, lift, ret.
  destruct (_to_container (object r)) as [c'|] eqn:Hc; [|discriminate].
  intros [= <- _]. exact (_to_container_consistent _ _ Hc).
Qed.

Lemma iterate_containers_consistent (w w' : World) (cs : list Container.t) :
  iterate_containers w = (Ok cs, w') -> Forall container_consistent cs.
Proof.
  unfold_driver. unfold bind at 1.
  destruct (request _ _ _ _ w) as [[r|e] w1]; [|discriminate].
  unfold bind, lift, ret.
  destruct (_to_containers (object r)) as [cs'|] eqn:Hcs; [|discriminate].
  intros [= <- _]. revert Hcs. unfold _to_containers, rbind.
  destruct (py_getitem _ _); [|discriminate].
  destruct (py_iter _); [|discriminate].
  apply collect_Forall. exact _to_container_consistent.
Qed.

Lemma get_object_consistent (cn on : value) (w w' : World) (o : Object.t) :
  get_object cn on w = (Ok o, w') ->
  object_consistent o /\
  exists c, Object.container o = Some c /\ container_consistent c.
Proof.
  unfold_get_object. unfold bind at 1.
  destruct (get_container cn w) as [[c|e] w1] eqn:Hc; [|discriminate].
  unfold bind at 1.
  destruct (request _ _ _ _ w1) as [[r|e] w2]; [|discriminate].
  unfold bind, lift, ret.
  destruct (_to_object (object r) (Some c)) as [o'|] eqn:Ho; [|discriminate].
  simpl. intros [= <- _]. split; [exact (_to_object_consistent _ _ _ Ho)|].
  exists c. split; [exact (_to_object_container _ _ _ Ho)|].
  exact (get_container_consistent cn w w1 c Hc).
Qed.

Lemma iterate_container_objects_consistent (c : Container.t) (w w' : World)
    (os : list Object.t) :
  iterate_container_objects c w = (Ok os, w') -> Forall object_consistent os.
Proof.
  unfold_driver. unfold bind at 1.
  destruct (request _ _ _ _ w) as [[r|e] w1]; [|discriminate].
  unfold bind, lift, ret.
  destruct (_to_objects (object r) (Some c)) as [os'|] eqn:Hos; [|discriminate].
  intros [= <- _]. revert Hos. unfold _to_objects, rbind.
  destruct (py_getitem _ _); [|discriminate].
  destruct (py_iter _); [|discriminate].
  apply collect_Forall. intros item o. apply _to_object_consistent.
Qed.

(** X15: in every state of the connection, whatever an operation
    returns agrees with the record it carries: the name of a container
    returned by [get_container], [create_container] or
    [iterate_containers] is the [name] field of its [extra]; the name,
    size, hash and metadata of an object returned by [get_object] or
    [iterate_container_objects] are the fields of its [extra], and
    the object of [get_object] sits in such a container. *)
Theorem returned_records_consistent (w : World) :
  (forall n c w', get_container n w = (Ok c, w') -> container_consistent c) /\
  (forall n c w',
     create_container n w = (Ok c, w') -> container_consistent c) /\
  (forall cs w',
     iterate_containers w = (Ok cs, w') -> Forall container_consistent cs) /\
  (forall cn on o w',
     get_object cn on w = (Ok o, w') ->
     object_consistent o /\
     exists c, Object.container o = Some c /\ container_consistent c) /\
  (forall c os w',
     iterate_container_objects c w = (Ok os, w') ->
     Forall object_consistent os).
Proof.
  split; [intros n c w'; apply get_container_consistent|].
  split; [intros n c w'; apply create_container_consistent|].
  split; [intros cs w'; apply iterate_containers_consistent|].
  split; [intros cn on o w'; apply get_object_consistent|].
  intros c os w'. apply iterate_container_objects_consistent.
Qed.

(** The state a request leaves, in every state it can start from. *)
Lemma request_shape action method params body (w : World) :
  exists q g h,
    snd (request action method params body w) =
    mkWorld Remote (request_path w) g h
      (sent w ++ [mkRequest method action q body])
      (snd (transport (remote w) (mkRequest method action q body))) (disk w).
Proof.
  destruct (gcs_params w) as [l|] eqn:Hl.
  - destruct (dict_bool (deref w l)) eqn:Hbag.
    + rewrite (request_armed transport action method params body w l Hl Hbag).
      cbv zeta. exists (deref w l ∪ default ∅ params).
      destruct (fst (transport (remote w) _)) as [r|e]; [|eauto].
      destruct (py_in "nextPageToken" (object r)) as [[|]|]; [|eauto|eauto].
      destruct (py_getitem (object r) "nextPageToken"); eauto.
    + rewrite (request_unarmed transport action method params body w l Hl
                 (dict_bool_false _ Hbag)). eauto.
  - rewrite (request_idle transport action method params body w Hl).
    unfold after_send. eauto.
Qed.

Lemma sends_pure {A} (m : M Remote A) :
  (forall w, snd (m w) = w) -> sends_at_most 0 m.
Proof.
  intros Hm w. exists []. rewrite Hm, app_nil_r.
  split; [reflexivity|simpl; lia].
Qed.

Lemma sends_bind {A B} (a b : nat) (m : M Remote A) (k : A -> M Remote B) :
  sends_at_most a m -> (forall x, sends_at_most b (k x)) ->
  sends_at_most (a + b) (bind m k).
Proof.
  intros Hm Hk w. unfold bind. destruct (Hm w) as (r1 & H1 & Hlen1).
  destruct (m w) as [[x|e] w1]; simpl in *.
  - destruct (Hk x w1) as (r2 & H2 & Hlen2). exists (r1 ++ r2)%list.
    rewrite H2, H1, app_assoc, length_app. split; [reflexivity|lia].
  - exists r1. split; [exact H1|lia].
Qed.

Lemma sends_weaken {A} (a b : nat) (m : M Remote A) :
  sends_at_most a m -> a <= b -> sends_at_most b m.
Proof.
  intros Hm Hab w. destruct (Hm w) as (reqs & H & Hlen).
  exists reqs. split; [exact H|lia].
Qed.

Lemma sends_request action method params body :
  sends_at_most 1 (request action method params body).
Proof.
  intros w. destruct (request_shape action method params body w)
    as (q & g & h & ->).
  exists [mkRequest method action q body]. split; [reflexivity|simpl; lia].
Qed.

Lemma keeps_pure {A} (m : M Remote A) :
  (forall w, snd (m w) = w) -> keeps_machine m.
Proof. intros Hm w. rewrite Hm. split; reflexivity. Qed.

Lemma keeps_bind {A B} (m : M Remote A) (k : A -> M Remote B) :
  keeps_machine m -> (forall x, keeps_machine (k x)) ->
  keeps_machine (bind m k).
Proof.
  intros Hm Hk w. unfold bind. destruct (Hm w) as [Hd Hp].
  destruct (m w) as [[x|e] w1]; simpl in *; [|split; assumption].
  destruct (Hk x w1) as [Hd' Hp']. split; congruence.
Qed.

Lemma keeps_request action method params body :
  keeps_machine (request action method params body).
Proof.
  intros w. destruct (request_shape action method params body w)
    as (q & g & h & ->). split; reflexivity.
Qed.

Ltac frame_step :=
  first
    [ apply sends_request | apply keeps_request
    | apply sends_pure; reflexivity | apply keeps_pure; reflexivity
    | eapply sends_bind | apply keeps_bind
    | match goal with
      | |- forall _, _ => intro
      | |- sends_at_most _ (if ?b then _ else _) => destruct b
      | |- keeps_machine (if ?b then _ else _) => destruct b
      end ].

Ltac frame := unfold_driver; repeat frame_step.

Lemma sends_get_container n : sends_at_most 1 (get_container n).
Proof. eapply sends_weaken; [frame|simpl; lia]. Qed.

Lemma keeps_get_container n : keeps_machine (get_container n).
Proof. frame. Qed.

Lemma sends_get_object cn on : sends_at_most 2 (get_object cn on).
Proof.
  unfold_get_object. eapply sends_weaken.
  - eapply sends_bind; [apply sends_get_container|]. intros c.
    repeat frame_step.
  - simpl; lia.
Qed.

Lemma keeps_get_object cn on : keeps_machine (get_object cn on).
Proof.
  unfold_get_object. apply keeps_bind; [apply keeps_get_container|].
  intros c. repeat frame_step.
Qed.

(** No operation of the driver, in any state and whatever its
    outcome, touches the local disk or the base path of the
    connection; [download_object] included. *)
Theorem run_keeps_machine (c : call) (w : World) :
  disk (run c w) = disk w /\ request_path (run c w) = request_path w.
Proof.
  destruct c; simpl;
    match goal with
    | |- disk (snd (?m w)) = _ /\ _ => revert w; change (keeps_machine m)
    end;
    try apply keeps_get_object; frame.
Qed.

(** X16: no operation of the driver retries or adds round trips: in
    any state and whatever its outcome, a call appends at most one
    request to those already handed to the transport, [get_object] at
    most two, and leaves the earlier ones in place. *)
Theorem run_sends (c : call) (w : World) :
  exists reqs,
    sent (run c w) = (sent w ++ reqs)%list /\
    length reqs <= max_requests c.
Proof.
  destruct c; simpl;
    match goal with
    | |- exists reqs, sent (snd (?m w)) = _ /\ length reqs <= ?n =>
        revert w; change (sends_at_most n m)
    end;
    try apply sends_get_object;
    (eapply sends_weaken; [frame|simpl; lia]).
Qed.

End DriverExtras.

(** ** Instances of the further properties *)

Lemma request_empty_bag_witness :
  gcs_params (snd (request unit two_pages "/b" "GET" None None empty_bag)) =
  Some 0%nat.
Proof.
  assert (Hbag : deref empty_bag 0 = ∅) by (vm_compute; reflexivity).
  destruct (request_empty_bag two_pages "/b" "GET" None None empty_bag 0%nat
              eq_refl Hbag) as (_ & _ & H & _).
  exact H.
Defined.

Lemma request_sends_once_witness :
  exists q : gmap string value,
    length (sent (snd (request unit two_pages "/b/bucket-x/o" "GET" None None
                         armed))) = 1%nat /\
    q !! "maxResults" = Some (VInt 1).
Proof.
  destruct (request_sends_once two_pages "/b/bucket-x/o" "GET" None None armed)
    as (q & Hq & Hsent & _).
  exists q. split.
  - rewrite Hsent. reflexivity.
  - vm_compute in Hq. injection Hq as <-. vm_compute. reflexivity.
Defined.

Lemma request_threads_token_witness :
  deref (snd (request unit two_pages "/b/bucket-x/o" "GET" None None armed)) 0
    !! "pageToken" = Some (VStr "T").
Proof.
  assert (Hbag : dict_bool (deref armed 0) = true) by (vm_compute; reflexivity).
  destruct (request_threads_token two_pages "/b/bucket-x/o" "GET" None None
              armed 0%nat
              (<["items" := VList [object_record "a"; object_record "b"]]>
                 (<["nextPageToken" := VStr "T"]> ∅)) tt eq_refl Hbag)
    as (_ & _ & H & _).
  - vm_compute; reflexivity.
  - rewrite H. vm_compute. reflexivity.
Defined.

Lemma request_failure_keeps_bag_witness :
  gcs_params (snd (request unit (answers VNone) "/b" "GET" None None armed)) =
  Some 0%nat.
Proof.
  assert (Hfail : fst (request unit (answers VNone) "/b" "GET" None None armed)
                  = Err TypeError) by (vm_compute; reflexivity).
  destruct (request_failure_keeps_bag (answers VNone) "/b" "GET" None None
              armed TypeError Hfail) as [H _].
  exact H.
Defined.

Lemma next_request_carries_token_witness :
  exists q : gmap string value,
    fst (pre_connect_hook unit ∅
           (snd (set_gcs_params unit (Some 0%nat)
                   (snd (request unit two_pages "/b/bucket-x/o" "GET" None
                           None armed))))) = Ok q /\
    q !! "pageToken" = Some (VStr "T").
Proof.
  assert (Hbag : dict_bool (deref armed 0) = true) by (vm_compute; reflexivity).
  destruct (next_request_carries_token two_pages "/b/bucket-x/o" "GET" None
              None armed 0%nat
              (<["items" := VList [object_record "a"; object_record "b"]]>
                 (<["nextPageToken" := VStr "T"]> ∅)) tt (VStr "T") ∅
              eq_refl Hbag) as (q & Hq & Htoken).
  - vm_compute; reflexivity.
  - vm_compute; reflexivity.
  - exists q. split; [rewrite Hq; reflexivity | exact Htoken].
Defined.

Lemma mapping_first_error_witness :
  _to_objects (VDict mixed_listing) None = Err (KeyError "size").
Proof.
  assert (Hitems : mixed_listing !! "items" =
                   Some (VList ([object_record "a"] ++ sizeless ::
                                [object_record "c"])))
    by (vm_compute; reflexivity).
  destruct (mapping_first_error mixed_listing [object_record "a"] sizeless
              [object_record "c"] Hitems) as [_ H].
  apply H; [|vm_compute; reflexivity].
  repeat constructor. eexists _, _, _, _.
  split; [reflexivity|]. repeat split; vm_compute; reflexivity.
Defined.

Lemma create_container_contract_witness :
  fst (create_container unit (answers (bucket_record "bucket-x")) my_driver
         (VStr "bucket-new") fresh) =
  Ok (Container.mk (VStr "bucket-x") (bucket_record "bucket-x")).
Proof.
  destruct (create_container_contract (answers (bucket_record "bucket-x"))
              my_driver (VStr "bucket-new") fresh eq_refl) as [_ H].
  vm_compute in H. vm_compute. exact H.
Defined.

Lemma get_container_contract_witness :
  fst (get_container unit (answers (VDict nameless)) plain_names my_driver
         (VStr "bucket-x") fresh) = Err (KeyError "name").
Proof.
  destruct (get_container_contract (answers (VDict nameless)) plain_names
              my_driver (VStr "bucket-x") fresh eq_refl) as [_ H].
  vm_compute in H. vm_compute. exact H.
Defined.

Lemma delete_object_contract_witness :
  fst (delete_object unit (answers (VDict ∅)) plain_names my_driver file_txt
         fresh) = Ok false.
Proof.
  pose proof (delete_object_contract (answers (VDict ∅)) plain_names
                my_driver file_txt fresh) as H.
  simpl in H. rewrite (H eq_refl). reflexivity.
Defined.

Lemma listing_without_items_witness :
  fst (iterate_container_objects unit (answers (VDict ∅)) plain_names
         my_driver bucket_x fresh) = Err (KeyError "items").
Proof.
  assert (Hitems : (∅ : gmap string value) !! "items" = None)
    by (vm_compute; reflexivity).
  destruct (listing_without_items (answers (VDict ∅)) plain_names my_driver
              bucket_x fresh ∅ eq_refl Hitems) as [_ H].
  rewrite (H eq_refl). reflexivity.
Defined.

Lemma iterate_container_objects_yields_all_witness :
  exists objects,
    fst (iterate_container_objects unit (answers two_objects) plain_names
           my_driver bucket_x fresh) = Ok objects /\
    length objects = 2%nat.
Proof.
  destruct (iterate_container_objects_yields_all (answers two_objects)
              plain_names my_driver bucket_x fresh (mkResponse two_objects)
              [object_record "a"; object_record "b"] eq_refl eq_refl)
    as (os & H1 & H2 & _).
  - vm_compute; reflexivity.
  - repeat constructor; eexists _, _, _, _;
      (split; [reflexivity|]); repeat split; vm_compute; reflexivity.
  - exists os. rewrite H1. split; [reflexivity | exact H2].
Defined.

Lemma get_object_returns_witness :
  exists o,
    fst (get_object unit one_file plain_names my_driver (VStr "bucket-x")
           (VStr "file.txt") fresh) = Ok o /\
    Object.name o = VStr "file.txt" /\
    Object.container o = Some bucket_x.
Proof.
  eexists. split.
  - apply (get_object_returns one_file plain_names my_driver
             (VStr "bucket-x") (VStr "file.txt") fresh
             (<["name" := VStr "bucket-x"]> (<["location" := VStr "US"]> ∅))
             (object_fields "file.txt") (VStr "bucket-x") (VStr "file.txt")
             (VInt 10) (VStr "abc123") eq_refl);
      vm_compute; reflexivity.
  - split; reflexivity.
Defined.

Lemma get_object_errors_witness :
  KeyError "name" ∈
    [KeyError "name"; KeyError "size"; KeyError "md5Hash"; TypeError;
     AttributeError "get"].
Proof.
  assert (Hfail : fst (get_object unit (answers (VDict nameless)) plain_names
                         my_driver (VStr "bucket-x") (VStr "file.txt") fresh)
                  = Err (KeyError "name")) by (vm_compute; reflexivity).
  destruct (get_object_errors (answers (VDict nameless)) plain_names my_driver
              (VStr "bucket-x") (VStr "file.txt") fresh (KeyError "name")
              eq_refl Hfail) as [H|[H|H]].
  - discriminate H.
  - discriminate H.
  - exact H.
Defined.

Lemma returned_records_consistent_witness : container_consistent bucket_x.
Proof.
  apply (proj1 (returned_records_consistent one_file plain_names my_driver
                  fresh) (VStr "bucket-x") bucket_x
           (snd (get_container unit one_file plain_names my_driver
                   (VStr "bucket-x") fresh))).
  vm_compute; reflexivity.
Defined.
